(** * Team report action (GENERATE_REPORT): a shallow embedding

    The development follows [generateTeamReport] and the [handler] of the
    [generateReport] action.  The agent runtime (memory store, text
    generation), the delivery callback and the logger are external
    collaborators: their calls are effects of a small state-and-exception
    monad that also records them in a trace.  The JavaScript built-ins the
    code relies on are either written out (property lookup and enumeration
    on plain objects, [Object.entries], string conversion) or, where their
    full definition is locale, Unicode or engine dependent ([Date],
    [JSON.parse], [toLowerCase], [trim], the code units of a string,
    [Array.prototype.sort]), fields of a [Host] class. *)

From Stdlib Require Import String Ascii List ZArith NArith Lia Bool.
From Stdlib Require Import DecimalString Sorted Permutation.
Import ListNotations.

Set Warnings "-register-all".
Open Scope string_scope.

(** ** Text *)

(** Rocq string literals have no escape sequences: the line feed and the
    double quote of the source's literals are named here. *)
Definition nl : string := String (ascii_of_nat 10) EmptyString.
Definition dq : string := String (ascii_of_nat 34) EmptyString.

(** Decimal rendering of a length or of an array position. *)
Definition Number_toString (n : nat) : string :=
  NilEmpty.string_of_uint (Nat.to_uint n).

(** [s.startsWith(p)], used to state where a report begins. *)
Fixpoint startsWith (p s : string) : bool :=
  match p, s with
  | EmptyString, _ => true
  | String a p', String b s' => (Ascii.eqb a b && startsWith p' s')%bool
  | String _ _, EmptyString => false
  end.

(** ** Exceptions and results

    What a JavaScript expression or call can do: complete with a value or
    throw.  Thrown values are [Error] objects of the three kinds that occur:
    a [TypeError] of the language itself, the [SyntaxError] of [JSON.parse],
    and a rejection reported by an external collaborator. *)
Inductive exn : Type :=
| TypeError (message : string)
| SyntaxError (message : string)
| Rejected (message : string).

Inductive Outcome (A : Type) : Type :=
| Returned (a : A)
| Thrown (e : exn).
Arguments Returned {A} a.
Arguments Thrown {A} e.

Definition isReturned {A : Type} (o : Outcome A) : bool :=
  match o with Returned _ => true | Thrown _ => false end.

(** ** Data model *)

(** Modelled from the spec: the declaration of [TeamMemberUpdate] (imported
    from the project's [types] module) is not among the sources.  The fields
    are the ones the report reads; the name and the answers may be missing,
    as the source guards both ([|| 'Unknown'], [update.answers ? ... : {}]). *)
Record TeamMemberUpdate : Type := {
  teamMemberId : string;
  teamMemberName : option string;
  serverName : string;
  checkInType : string;
  timestamp : string;
  answers : option string
}.

(** [memory.content] seen through the cast of the filter:
    [{ type?: string; update?: TeamMemberUpdate }]. *)
Record MemoryContent : Type := {
  type_ : option string;
  update : option TeamMemberUpdate
}.

(** A stored message; [content?.] in the source allows for a missing
    content. *)
Record Memory : Type := {
  content : option MemoryContent
}.

(** The [Content] handed to the delivery callback. *)
Record Content : Type := {
  text : string;
  source : string
}.

(** The handler's view of the incoming message and of the state. *)
Record Message : Type := {
  messageText : option string;
  roomId : string
}.

Record State : Type := {
  stateStandupType : option string
}.

(** A value produced by [JSON.parse].  A number is kept by its decimal
    rendering, the only way the report observes it; the fields of an object
    are listed in the order [Object.entries] enumerates them. *)
Inductive JsonValue : Type :=
| JNull
| JBool (b : bool)
| JNumber (rendering : string)
| JString (s : string)
| JArray (items : list JsonValue)
| JObject (fields : list (string * JsonValue)).

(** JavaScript truthiness of an optional string: [undefined] and the empty
    string are falsy. *)
Definition truthy (s : option string) : bool :=
  match s with
  | Some (String _ _) => true
  | _ => false
  end.

(** [a || b] on strings, [a] possibly missing. *)
Definition orElse (a : option string) (b : string) : string :=
  match a with
  | Some (String c r) => String c r
  | _ => b
  end.

(** The payload sent to the text generation: for each update either the
    object rebuilt with its answers decoded, or the update as stored. *)
Record DecodedUpdate : Type := {
  decodedTeamMemberId : string;
  decodedTeamMemberName : option string;
  decodedServerName : string;
  decodedCheckInType : string;
  decodedTimestamp : string;
  decodedAnswers : JsonValue
}.

Inductive ProcessedUpdate : Type :=
| Decoded (d : DecodedUpdate)
| Raw (u : TeamMemberUpdate).

(** ** Sorting

    The language requires [Array.prototype.sort] to be stable, which fixes
    its result for every consistent comparator: the sorted arrangement in
    which elements that compare equal keep their order.  [stableSort]
    computes that arrangement. *)

Section StableSort.
Context {A : Type}.
(** The comparator's result is a Number: [None] is [NaN]. *)
Variable comparefn : A -> A -> option Z.

(** [SortCompare]: a [NaN] result counts as [+0]. *)
Definition sortCompare (x y : A) : Z :=
  match comparefn x y with
  | Some v => v
  | None => 0%Z
  end.

(** [x], which stood before [y], stays before it unless the comparator says
    it is greater. *)
Definition staysBefore (x y : A) : bool :=
  match comparefn x y with
  | Some v => (v <=? 0)%Z
  | None => true
  end.

Fixpoint insertSorted (x : A) (l : list A) : list A :=
  match l with
  | [] => [x]
  | y :: rest =>
      if staysBefore x y then x :: y :: rest else y :: insertSorted x rest
  end.

Fixpoint stableSort (l : list A) : list A :=
  match l with
  | [] => []
  | x :: rest => insertSorted x (stableSort rest)
  end.

(** The comparator is consistent on the elements of [l]: its sign is that of
    the difference of some integer rank, so that it orders [l] as a total
    preorder. *)
Definition rankedBy (rank : A -> Z) (l : list A) : Prop :=
  forall x y, In x l -> In y l -> Z.sgn (sortCompare x y) = Z.sgn (rank x - rank y).

Lemma insertSorted_perm (x : A) (l : list A) :
  Permutation (x :: l) (insertSorted x l).
Proof.
  induction l as [|y l IH]; cbn; [reflexivity|].
  destruct (staysBefore x y); [reflexivity|].
  rewrite perm_swap. now apply perm_skip.
Qed.

Lemma stableSort_perm (l : list A) : Permutation l (stableSort l).
Proof.
  induction l as [|x l IH]; cbn; [reflexivity|].
  rewrite <- insertSorted_perm. now apply perm_skip.
Qed.

(** On a domain where the comparator is a consistent total preorder [R],
    the result is sorted by [R]. *)
Variable R : A -> A -> Prop.
Variable dom : A -> Prop.
Hypothesis before_R :
  forall x y, dom x -> dom y -> staysBefore x y = true -> R x y.
Hypothesis after_R :
  forall x y, dom x -> dom y -> staysBefore x y = false -> R y x.
Hypothesis R_trans :
  forall x y z, dom x -> dom y -> dom z -> R x y -> R y z -> R x z.

Lemma insertSorted_sorted (x : A) (l : list A) :
  dom x -> Forall dom l -> StronglySorted R l ->
  StronglySorted R (insertSorted x l).
Proof.
  intros Hx Hl Hs. induction l as [|y l IH]; cbn.
  - constructor; constructor.
  - inversion Hl as [|? ? Hy Hl']; subst.
    inversion Hs as [|? ? Hs' Hall]; subst.
    destruct (staysBefore x y) eqn:E.
    + constructor; [exact Hs|]. constructor; [now apply before_R|].
      rewrite Forall_forall in *. intros z Hz.
      apply (R_trans x y z); auto.
    + constructor; [now apply IH|].
      rewrite Forall_forall in *. intros z Hz.
      apply (Permutation_in _ (Permutation_sym (insertSorted_perm x l))) in Hz.
      destruct Hz as [<-|Hz]; [now apply after_R | now apply Hall].
Qed.

Lemma stableSort_sorted (l : list A) :
  Forall dom l -> StronglySorted R (stableSort l).
Proof.
  induction l as [|x l IH]; cbn; intros H; [constructor|].
  inversion H as [|? ? Hx Hl]; subst.
  apply insertSorted_sorted; auto.
  rewrite Forall_forall in *. intros z Hz. apply Hl.
  now apply (Permutation_in _ (Permutation_sym (stableSort_perm l))).
Qed.

End StableSort.

(** ** The host: built-ins taken as given

    [Date_getTime s] is [new Date(s).getTime()], [None] standing for [NaN]
    (the timestamp does not parse); [Date_toLocaleString] renders a valid
    time value in the host's locale; [JSON_parse] is [None] where
    [JSON.parse] throws its [SyntaxError]; [JSON_stringify] is
    [JSON.stringify(processedUpdates, null, 2)]; [toLowerCase] and [trim]
    are the methods of [String.prototype]; [String_codeUnits s] lists the
    one-unit strings [s[0]], [s[1]], ... of the UTF-16 code units of [s],
    the indexed properties of a string.

    [Array_sort] is [Array.prototype.sort] on an array of updates.  It
    calls the comparator and never throws of its own; the result is a
    rearrangement of the array, and with a consistent comparator it is the
    stable sorted one (the language requires stability since ES2019).  With a comparator that is not consistent, as
    [NaN] results can make it, the language leaves the order to the
    engine, and so does this class. *)
Class Host : Type := {
  Date_getTime : string -> option Z;
  Date_toLocaleString : Z -> string;
  JSON_parse : string -> option JsonValue;
  JSON_stringify : list ProcessedUpdate -> string;
  toLowerCase : string -> string;
  trim : string -> string;
  String_codeUnits : string -> list string;
  Array_sort :
    (TeamMemberUpdate -> TeamMemberUpdate -> option Z) ->
    list TeamMemberUpdate -> list TeamMemberUpdate;
  Array_sort_permutes :
    forall comparefn l, Permutation l (Array_sort comparefn l);
  Array_sort_stable :
    forall comparefn rank l,
      rankedBy comparefn rank l ->
      Array_sort comparefn l = stableSort comparefn l
}.

(** ** The runtime: the external collaborators

    [World] is whatever state the store and the text generation keep between
    calls; each call may change it and may throw. *)
Class IAgentRuntime (World : Type) : Type := {
  getMemories : World -> Outcome (list Memory) * World;
  useModel : string -> World -> Outcome string * World
}.

(** A delivery callback: [callback(content, [])]. *)
Definition HandlerCallback (World : Type) : Type :=
  Content -> World -> Outcome unit * World.

(** ** Built-ins written out *)

(** *** Plain objects used as maps

    [updatesByMember] is an object literal [{}]: its prototype is
    [Object.prototype], so reading a key finds an own property or else one of
    the prototype's members. *)
Definition ObjectPrototype_keys : list string :=
  [ "constructor"; "__defineGetter__"; "__defineSetter__"; "hasOwnProperty";
    "__lookupGetter__"; "__lookupSetter__"; "isPrototypeOf";
    "propertyIsEnumerable"; "toString"; "valueOf"; "__proto__";
    "toLocaleString" ].

Definition inherited (key : string) : bool :=
  existsb (String.eqb key) ObjectPrototype_keys.

(** Own properties, in the order of their creation. *)
Definition PropertyTable (V : Type) : Type := list (string * V).

(** What [obj[key]] evaluates to. *)
Inductive PropertyValue (V : Type) : Type :=
| Undefined
| Own (v : V)
| FromPrototype.
Arguments Undefined {V}.
Arguments Own {V} v.
Arguments FromPrototype {V}.

Fixpoint getOwn {V : Type} (obj : PropertyTable V) (key : string) : option V :=
  match obj with
  | [] => None
  | (k, v) :: rest => if String.eqb k key then Some v else getOwn rest key
  end.

Definition Get {V : Type} (obj : PropertyTable V) (key : string) : PropertyValue V :=
  match getOwn obj key with
  | Some v => Own v
  | None => if inherited key then FromPrototype else Undefined
  end.

(** [obj[key] = v] for a key that is not inherited: the own property is
    overwritten in place, or created after the existing ones. *)
Fixpoint Put {V : Type} (obj : PropertyTable V) (key : string) (v : V) : PropertyTable V :=
  match obj with
  | [] => [(key, v)]
  | (k, v0) :: rest =>
      if String.eqb k key then (k, v) :: rest else (k, v0) :: Put rest key v
  end.

(** Array indices: the canonical decimal strings of the integers below
    [2^32 - 1]. *)
Definition digitValue (c : ascii) : option N :=
  let n := N_of_ascii c in
  if ((48 <=? n) && (n <=? 57))%N then Some (n - 48)%N else None.

Fixpoint decimalValue (s : string) (acc : N) : option N :=
  match s with
  | EmptyString => Some acc
  | String c rest =>
      match digitValue c with
      | Some d => decimalValue rest (10 * acc + d)%N
      | None => None
      end
  end.

Definition arrayIndex (key : string) : option N :=
  match key with
  | EmptyString => None
  | String c rest =>
      if (Ascii.eqb c "0" && negb (String.eqb rest EmptyString))%bool then None
      else if (10 <? String.length key)%nat then None
      else match decimalValue key 0 with
           | Some n => if (n <? 4294967295)%N then Some n else None
           | None => None
           end
  end.

Definition isArrayIndex (key : string) : bool :=
  match arrayIndex key with Some _ => true | None => false end.

(** Ascending numeric order of the array-index keys. *)
Definition indexOrder {V : Type} (a b : string * V) : option Z :=
  match arrayIndex (fst a), arrayIndex (fst b) with
  | Some i, Some j => Some (Z.of_N i - Z.of_N j)%Z
  | _, _ => Some 0%Z
  end.

(** [Object.entries(obj)]: own properties, array indices first in ascending
    numeric order, then the other string keys in creation order
    ([OrdinaryOwnPropertyKeys]). *)
Definition Object_entries {V : Type} (obj : PropertyTable V) : list (string * V) :=
  stableSort indexOrder (filter (fun p => isArrayIndex (fst p)) obj)
  ++ filter (fun p => negb (isArrayIndex (fst p))) obj.

(** *** Decoded answers: enumeration and string conversion *)

Fixpoint indexed {A : Type} (i : nat) (l : list A) : list (string * A) :=
  match l with
  | [] => []
  | x :: rest => (Number_toString i, x) :: indexed (S i) rest
  end.

(** The indexed properties of a string: its code units. *)
Definition characters {host : Host} (s : string) : list JsonValue :=
  map JString (String_codeUnits s).

(** [Object.entries(answers)] on a decoded value: [null] cannot be converted
    to an object, numbers and booleans have no own enumerable property, a
    string and an array enumerate their positions. *)
Definition JSON_entries {host : Host} (v : JsonValue)
  : Outcome (list (string * JsonValue)) :=
  match v with
  | JNull => Thrown (TypeError "Cannot convert undefined or null to object")
  | JBool _ => Returned []
  | JNumber _ => Returned []
  | JString s => Returned (indexed 0 (characters s))
  | JArray items => Returned (indexed 0 items)
  | JObject fields => Returned fields
  end.

Definition hasField (name : string) (fields : list (string * JsonValue)) : bool :=
  existsb (fun p => String.eqb (fst p) name) fields.

(** [`${answer}`]: [ToString].  An array joins its elements with commas
    ([null] elements render empty); an object renders through
    [Object.prototype.toString] unless an own [toString] field, never
    callable in decoded JSON, hides it: then no conversion exists. *)
Fixpoint ToString (v : JsonValue) : Outcome string :=
  match v with
  | JNull => Returned "null"
  | JBool true => Returned "true"
  | JBool false => Returned "false"
  | JNumber rendering => Returned rendering
  | JString s => Returned s
  | JArray items =>
      (fix join (l : list JsonValue) : Outcome string :=
         match l with
         | [] => Returned EmptyString
         | x :: rest =>
             match (match x with JNull => Returned EmptyString | _ => ToString x end) with
             | Thrown e => Thrown e
             | Returned sx =>
                 match rest with
                 | [] => Returned sx
                 | _ :: _ =>
                     match join rest with
                     | Returned sr => Returned (sx ++ "," ++ sr)
                     | Thrown e => Thrown e
                     end
                 end
             end
         end) items
  | JObject fields =>
      if hasField "toString" fields
      then Thrown (TypeError "Cannot convert object to primitive value")
      else Returned "[object Object]"
  end.

(** ** Effects

    Calls to the collaborators are recorded as events, in order. *)
Inductive Level : Type := Info | Warn | Error.

Inductive Event : Type :=
| EvLog (level : Level) (message : string)
| EvGetMemories
| EvUseModel (prompt : string)
| EvCallback (delivered : Content).

Section Effects.
Context {World : Type}.

(** The state a computation runs in: the collaborators' world, the
    [report] variable of [generateTeamReport] (mutated with [+=], so that
    a [catch] block sees what its [try] block had appended), and the
    events so far. *)
Record Frame : Type := {
  world : World;
  report : string;
  trace : list Event
}.

Definition M (A : Type) : Type := Frame -> Outcome A * Frame.

Definition ret {A : Type} (a : A) : M A := fun f => (Returned a, f).

Definition throw {A : Type} (e : exn) : M A := fun f => (Thrown e, f).

Definition bind {A B : Type} (m : M A) (k : A -> M B) : M B :=
  fun f =>
    match m f with
    | (Returned a, f') => k a f'
    | (Thrown e, f') => (Thrown e, f')
    end.

(** [try { m } catch (error) { handler error }] *)
Definition try_catch {A : Type} (m : M A) (handler : exn -> M A) : M A :=
  fun f =>
    match m f with
    | (Returned a, f') => (Returned a, f')
    | (Thrown e, f') => handler e f'
    end.

Definition emit (e : Event) : M unit :=
  fun f => (Returned tt,
            {| world := world f; report := report f; trace := trace f ++ [e] |}).

(** [logger.info], [logger.warn], [logger.error]: the message is recorded,
    further arguments are not. *)
Definition log (level : Level) (message : string) : M unit :=
  emit (EvLog level message).

(** An external call: the event, then the collaborator's own effect. *)
Definition external {A : Type} (e : Event) (call : World -> Outcome A * World) : M A :=
  fun f =>
    let (o, w) := call (world f) in
    (o, {| world := w; report := report f; trace := trace f ++ [e] |}).

(** A pure expression that may throw. *)
Definition eval {A : Type} (o : Outcome A) : M A := fun f => (o, f).

(** [let report = s] and [report += s]. *)
Definition set_report (s : string) : M unit :=
  fun f => (Returned tt, {| world := world f; report := s; trace := trace f |}).

Definition append_report (s : string) : M unit :=
  fun f => (Returned tt,
            {| world := world f; report := report f ++ s; trace := trace f |}).

Definition get_report : M string := fun f => (Returned (report f), f).

(** [for (const x of l) { body x }] *)
Fixpoint for_each {A : Type} (l : list A) (body : A -> M unit) : M unit :=
  match l with
  | [] => ret tt
  | x :: rest => bind (body x) (fun _ => for_each rest body)
  end.

(** [l.map(fn)] with a callback that has effects. *)
Fixpoint map_M {A B : Type} (fn : A -> M B) (l : list A) : M (list B) :=
  match l with
  | [] => ret []
  | x :: rest =>
      bind (fn x) (fun y => bind (map_M fn rest) (fun ys => ret (y :: ys)))
  end.
End Effects.

Arguments Frame World : clear implicits.
Arguments M World A : clear implicits.

Declare Scope js_scope.
Delimit Scope js_scope with js.
Notation "x <- m ;; k" := (bind m (fun x => k))
  (at level 61, m at next level, right associativity) : js_scope.
Notation "m ;; k" := (bind m (fun _ => k))
  (at level 61, right associativity) : js_scope.
Open Scope js_scope.

(** ** The report assembler *)

Section Program.
Context {World : Type} {host : Host} {runtime : IAgentRuntime World}.

(** The callback of the first [filter]: only the type tag decides;
    [requestedType] and [checkInType] are computed and not used. *)
Definition memoryFilter (standupType : string) (memory : Memory) : bool :=
  let contentType :=
    match content memory with Some c => type_ c | None => None end in
  let requestedType := toLowerCase standupType in
  let checkInType_ :=
    match content memory with
    | Some c => option_map checkInType (update c)
    | None => None
    end in
  match contentType with
  | Some t => String.eqb t "team-member-update"
  | None => false
  end.

(** [(memory.content as { update })?.update] *)
Definition getUpdate (memory : Memory) : option TeamMemberUpdate :=
  match content memory with Some c => update c | None => None end.

(** [.filter((update) => !!update)] *)
Fixpoint present {A : Type} (l : list (option A)) : list A :=
  match l with
  | [] => []
  | Some x :: rest => x :: present rest
  | None :: rest => present rest
  end.

(** [(a, b) => new Date(b.timestamp).getTime() - new Date(a.timestamp).getTime()];
    the difference of two time values keeps its sign in floating point. *)
Definition byTimestampDesc (a b : TeamMemberUpdate) : option Z :=
  match Date_getTime (timestamp b), Date_getTime (timestamp a) with
  | Some tb, Some ta => Some (tb - ta)%Z
  | _, _ => None
  end.

(** The updates before sorting. *)
Definition filteredUpdates (standupType : string) (memories : list Memory)
  : list TeamMemberUpdate :=
  present (map getUpdate (filter (memoryFilter standupType) memories)).

(** [const updates = memories.filter(...).map(...).filter(...).sort(...)] *)
Definition selectUpdates (standupType : string) (memories : list Memory)
  : list TeamMemberUpdate :=
  Array_sort byTimestampDesc (filteredUpdates standupType memories).

Definition heading (standupType : string) : string :=
  "📊 **Team Progress Report - " ++ standupType ++ " Standups**" ++ nl ++ nl.

Definition noUpdatesMessage (standupType : string) : string :=
  "No updates found for " ++ dq ++ standupType ++ dq
  ++ " standups in this room." ++ nl.

(** *** Grouping by team member *)

Definition MemberTable : Type := PropertyTable (list TeamMemberUpdate).

(** One turn of the grouping loop: create the member's array if the key
    reads falsy, then [push].  A key that names a member of
    [Object.prototype] reads truthy and has no [push]. *)
Definition groupUpdate (updatesByMember : MemberTable) (update : TeamMemberUpdate)
  : M World MemberTable :=
  log Info ("Processing update for team member: "
            ++ orElse (teamMemberName update) "Unknown"
            ++ " (" ++ teamMemberId update ++ ")") ;;
  let key := teamMemberId update in
  let created :=
    match Get updatesByMember key with
    | Undefined => Put updatesByMember key []
    | _ => updatesByMember
    end in
  match Get created key with
  | Own items => ret (Put created key (items ++ [update])%list)
  | FromPrototype =>
      throw (TypeError "updatesByMember[update.teamMemberId].push is not a function")
  | Undefined =>
      throw (TypeError "Cannot read properties of undefined (reading 'push')")
  end.

Fixpoint groupByMember (updates : list TeamMemberUpdate) (updatesByMember : MemberTable)
  : M World MemberTable :=
  match updates with
  | [] => ret updatesByMember
  | update :: rest =>
      grown <- groupUpdate updatesByMember update ;;
      groupByMember rest grown
  end.

(** *** One member's section *)

(** [update.answers ? JSON.parse(update.answers) : {}] *)
Definition parseAnswers (update : TeamMemberUpdate) : Outcome JsonValue :=
  match answers update with
  | Some (String c rest) =>
      match JSON_parse (String c rest) with
      | Some v => Returned v
      | None => Thrown (SyntaxError "Unexpected token in JSON")
      end
  | _ => Returned (JObject [])
  end.

(** The callback of [memberUpdates.map]: the raw update stands in when
    its answers do not decode. *)
Definition processUpdate (update : TeamMemberUpdate) : M World ProcessedUpdate :=
  try_catch
    (answers_ <- eval (parseAnswers update) ;;
     ret (Decoded {| decodedTeamMemberId := teamMemberId update;
                     decodedTeamMemberName := teamMemberName update;
                     decodedServerName := serverName update;
                     decodedCheckInType := checkInType update;
                     decodedTimestamp := timestamp update;
                     decodedAnswers := answers_ |}))
    (fun error =>
       log Error "Error parsing answers JSON:" ;;
       ret (Raw update)).

Definition analysisPrompt (processedUpdates : list ProcessedUpdate) : string :=
  "Analyze these team member updates and provide a detailed productivity report." ++ nl
  ++ "      " ++ nl
  ++ "      The " ++ dq ++ "answers" ++ dq
  ++ " field contains all the update information in a question-answer format." ++ nl
  ++ "      " ++ nl
  ++ "      Highlight the following in your analysis:" ++ nl
  ++ "      1. Overall Progress: What major tasks/milestones were completed?" ++ nl
  ++ "      2. Current Focus: What are they actively working on?" ++ nl
  ++ "      3. Productivity Analysis: Are they meeting deadlines? Any patterns in their work?" ++ nl
  ++ "      4. Blockers Impact: How are blockers affecting their progress?" ++ nl
  ++ "      5. Recommendations: What could improve their productivity?" ++ nl
  ++ nl
  ++ "      Updates data: " ++ JSON_stringify processedUpdates.

(** [new Date(update.timestamp).toLocaleString()] *)
Definition localeTime (update : TeamMemberUpdate) : string :=
  match Date_getTime (timestamp update) with
  | Some t => Date_toLocaleString t
  | None => "Invalid Date"
  end.

(** The body of [for (const [question, answer] of Object.entries(answers))]. *)
Definition displayEntry (entry : string * JsonValue) : M World unit :=
  answer <- eval (ToString (snd entry)) ;;
  append_report ("▫️ **" ++ fst entry ++ "**: " ++ answer ++ nl).

(** The inner [try]/[catch] of both display loops: decode the answers and
    append one line per entry; on any throw append the error line after
    whatever was appended. *)
Definition displayAnswers (update : TeamMemberUpdate) : M World unit :=
  try_catch
    (answers_ <- eval (parseAnswers update) ;;
     entries <- eval (JSON_entries answers_) ;;
     for_each entries displayEntry)
    (fun error =>
       log Error "Error parsing answers JSON for display:" ;;
       append_report ("▫️ Error parsing update details" ++ nl)).

(** [memberUpdates.slice(0, 3)] *)
Definition recentUpdates (memberUpdates : list TeamMemberUpdate)
  : list TeamMemberUpdate :=
  firstn 3 memberUpdates.

(** The body of the loop over the recent updates. *)
Definition displayRecent (update : TeamMemberUpdate) : M World unit :=
  append_report (nl ++ "🕒 " ++ localeTime update ++ nl) ;;
  displayAnswers update.

(** The body of the loop of the fallback, over all the member's updates. *)
Definition displayRaw (update : TeamMemberUpdate) : M World unit :=
  append_report ("Update from " ++ localeTime update ++ ":" ++ nl) ;;
  displayAnswers update.

Definition memberSection (entry : string * list TeamMemberUpdate) : M World unit :=
  let teamMemberId_ := fst entry in
  let memberUpdates := snd entry in
  let teamMemberName_ :=
    orElse (match memberUpdates with
            | first :: _ => teamMemberName first
            | [] => None
            end) "Unknown" in
  log Info ("Generating report section for: " ++ teamMemberName_
            ++ " (" ++ teamMemberId_ ++ ")") ;;
  append_report ("👤 **" ++ teamMemberName_ ++ "** (ID: " ++ teamMemberId_ ++ ")"
                 ++ nl ++ nl) ;;
  processedUpdates <- map_M processUpdate memberUpdates ;;
  let prompt := analysisPrompt processedUpdates in
  log Info "Generating productivity analysis for team member:" ;;
  try_catch
    (analysis <- external (EvUseModel prompt) (useModel prompt) ;;
     append_report ("📋 **Productivity Analysis**:" ++ nl ++ analysis ++ nl ++ nl) ;;
     append_report ("📅 **Recent Updates**:" ++ nl) ;;
     for_each (recentUpdates memberUpdates) displayRecent)
    (fun error =>
       log Error "Error generating analysis:" ;;
       append_report ("❌ Error generating analysis. Showing raw updates:" ++ nl ++ nl) ;;
       for_each memberUpdates displayRaw) ;;
  append_report (nl ++ "-------------------" ++ nl ++ nl).

(** *** generateTeamReport *)

Definition generateTeamReport (standupType : string) (roomId_ : option string)
  : M World string :=
  try_catch
    (log Info "=== GENERATE TEAM REPORT START ===" ;;
     log Info ("Generating report for standup type: " ++ standupType) ;;
     memories <- external EvGetMemories getMemories ;;
     log Info ("Retrieved " ++ Number_toString (List.length memories)
               ++ " total messages from room") ;;
     let updates := selectUpdates standupType memories in
     log Info ("Found " ++ Number_toString (List.length updates)
               ++ " updates matching standup type: " ++ standupType) ;;
     set_report (heading standupType) ;;
     if (List.length updates =? 0)%nat then
       append_report (noUpdatesMessage standupType) ;;
       get_report
     else
       updatesByMember <- groupByMember updates [] ;;
       for_each (Object_entries updatesByMember) memberSection ;;
       log Info "Successfully generated team report" ;;
       log Info "=== GENERATE TEAM REPORT END ===" ;;
       get_report)
    (fun error =>
       log Error "Error generating team report:" ;;
       throw error).
End Program.

(** ** The action handler *)

(** How the block that determines the standup type ends: with a [return]
    of the handler, or with the normalised type for the code after it. *)
Inductive Classification : Type :=
| HandlerReturns (result : bool)
| Classified (standupType : string).

Section Handler.
Context {World : Type} {host : Host} {runtime : IAgentRuntime World}.

(** [await callback(content, [])] *)
Definition invoke (callback : HandlerCallback World) (c : Content) : M World unit :=
  external (EvCallback c) (callback c).

Definition classificationPrompt (text_ : string) : string :=
  "Extract the standup type from this text. Try to understand the sentence and its context." ++ nl
  ++ "        Return one of these values: STANDUP, SPRINT, MENTAL_HEALTH, PROJECT_STATUS, RETRO." ++ nl
  ++ "        If you can't determine a specific type, use STANDUP as default." ++ nl
  ++ "        " ++ nl
  ++ "        Text: " ++ dq ++ text_ ++ dq.

Definition template : string :=
  "Please select a check-in type:" ++ nl
  ++ "          - Daily Standup (STANDUP)" ++ nl
  ++ "          - Sprint Check-in (SPRINT) " ++ nl
  ++ "          - Mental Health Check-in (MENTAL_HEALTH)" ++ nl
  ++ "          - Project Status Update (PROJECT_STATUS)" ++ nl
  ++ "          - Team Retrospective (RETRO)".

Definition validTypes : list string :=
  [ "standup"; "sprint"; "mental_health"; "project_status"; "retro" ].

Definition promptContent : Content :=
  {| text := template; source := "discord" |}.

Definition invalidTypeContent : Content :=
  {| text := "Invalid check-in type. Please select one of: Daily Standup, Sprint Check-in, Mental Health Check-in, Project Status Update, or Team Retrospective";
     source := "discord" |}.

Definition notUnderstoodContent : Content :=
  {| text := "I couldn't understand the check-in type. Please try again with a valid type.";
     source := "discord" |}.

Definition errorContent : Content :=
  {| text := "❌ An error occurred while generating the report. Please try again.";
     source := "discord" |}.

(** [((state.standupType as string) || parsedType)?.toLowerCase()?.trim()] *)
Definition normalize (state : State) (parsedType : string) : string :=
  trim (toLowerCase (orElse (stateStandupType state) parsedType)).

(** [validTypes.some((type) => standupType === type)] *)
Definition isValidType (standupType : string) : bool :=
  existsb (fun type => String.eqb standupType type) validTypes.

(** The inner [try]/[catch]: ask the model, prompt the user when there is
    nothing to go on, validate. *)
Definition classify (state : State) (callback : HandlerCallback World)
           (text_ : string) (roomId_ : string) : M World Classification :=
  try_catch
    (let prompt := classificationPrompt text_ in
     parsedType <- external (EvUseModel prompt) (useModel prompt) ;;
     log Info "AI parsed standup type:" ;;
     if (negb (truthy (stateStandupType state)) && negb (truthy (Some parsedType)))%bool
     then
       log Info "Asking for standup type" ;;
       invoke callback promptContent ;;
       ret (HandlerReturns true)
     else
       let standupType := normalize state parsedType in
       log Info "Generating report with parameters:" ;;
       if negb (isValidType standupType) then
         invoke callback invalidTypeContent ;;
         ret (HandlerReturns false)
       else
         ret (Classified standupType))
    (fun aiError =>
       log Error "Error using AI to parse input:" ;;
       invoke callback notUnderstoodContent ;;
       ret (HandlerReturns false)).

Definition handler (message : Message) (state : option State)
           (callback : option (HandlerCallback World)) : M World bool :=
  try_catch
    (log Info "=== GENERATE REPORT HANDLER START ===" ;;
     match state with
     | None => ret false
     | Some state_ =>
         match callback with
         | None =>
             log Warn "No callback function provided" ;;
             ret false
         | Some callback_ =>
             match messageText message with
             | Some (String c rest) =>
                 let text_ := String c rest in
                 classification <-
                   classify state_ callback_ text_ (roomId message) ;;
                 match classification with
                 | HandlerReturns result => ret result
                 | Classified standupType =>
                     report_ <-
                       generateTeamReport standupType (Some (roomId message)) ;;
                     invoke callback_ {| text := report_; source := "discord" |} ;;
                     log Info "=== GENERATE REPORT HANDLER END ===" ;;
                     ret true
                 end
             | _ =>
                 log Warn "No text content found in message" ;;
                 ret false
             end
         end
     end)
    (fun error =>
       log Error "=== GENERATE REPORT HANDLER ERROR ===" ;;
       log Error "Error details:" ;;
       match callback with
       | Some callback_ => invoke callback_ errorContent
       | None => ret tt
       end ;;
       ret false).

(** [validate]: every message is accepted. *)
Definition validate (message : Message) : M World bool :=
  log Info "Validating generateReport action" ;;
  ret true.

(** A fresh execution: no event yet, [report] not yet assigned. *)
Definition start (w : World) : Frame World :=
  {| world := w; report := EmptyString; trace := [] |}.
End Handler.

(** ** Reading a trace *)

Definition isCallback (e : Event) : bool :=
  match e with EvCallback _ => true | _ => false end.

(** The contents delivered, in order. *)
Fixpoint deliveries (t : list Event) : list Content :=
  match t with
  | [] => []
  | EvCallback c :: rest => c :: deliveries rest
  | _ :: rest => deliveries rest
  end.

Definition notCallback (e : Event) : bool := negb (isCallback e).



(** ** A sample host and runtime

    Concrete collaborators for the examples below.  They agree with a
    JavaScript host (UTC, en-US) on the few strings the examples use; the
    store and the two uses of the text generation are scripted by the
    world. *)
Module Sample.

Definition lowerChar (c : ascii) : ascii :=
  let n := nat_of_ascii c in
  if ((65 <=? n) && (n <=? 90))%nat then ascii_of_nat (n + 32) else c.

Fixpoint lower (s : string) : string :=
  match s with
  | EmptyString => EmptyString
  | String c rest => String (lowerChar c) (lower rest)
  end.

Definition isSpace (c : ascii) : bool :=
  let n := nat_of_ascii c in
  ((n =? 32) || (n =? 9) || (n =? 10) || (n =? 13))%nat.

Fixpoint dropSpaces (l : list ascii) : list ascii :=
  match l with
  | c :: rest => if isSpace c then dropSpaces rest else l
  | [] => []
  end.

Definition strip (s : string) : string :=
  string_of_list_ascii
    (rev (dropSpaces (rev (dropSpaces (list_ascii_of_string s))))).

Definition quoted (s : string) : string := dq ++ s ++ dq.

(** [{"Progress":"Shipped login","Blockers":"None"}] *)
Definition goodAnswers : string :=
  "{" ++ quoted "Progress" ++ ":" ++ quoted "Shipped login" ++ ","
  ++ quoted "Blockers" ++ ":" ++ quoted "None" ++ "}".

(** [{"Done":"yes","Meta":{"toString":1}}] *)
Definition hiddenToString : string :=
  "{" ++ quoted "Done" ++ ":" ++ quoted "yes" ++ ","
  ++ quoted "Meta" ++ ":{" ++ quoted "toString" ++ ":1}}".

(** Not JSON. *)
Definition malformedAnswers : string := "{oops".

Definition parse (s : string) : option JsonValue :=
  if String.eqb s goodAnswers then
    Some (JObject [("Progress", JString "Shipped login"); ("Blockers", JString "None")])
  else if String.eqb s hiddenToString then
    Some (JObject [("Done", JString "yes");
                   ("Meta", JObject [("toString", JNumber "1")])])
  else if String.eqb s "null" then Some JNull
  else None.

Definition getTime (s : string) : option Z :=
  if String.eqb s "2024-05-01T09:00:00.000Z" then Some 1714554000000%Z
  else if String.eqb s "2024-05-02T09:00:00.000Z" then Some 1714640400000%Z
  else if String.eqb s "2024-05-03T09:00:00.000Z" then Some 1714726800000%Z
  else None.

Definition localeString (t : Z) : string :=
  if (t =? 1714554000000)%Z then "5/1/2024, 9:00:00 AM"
  else if (t =? 1714640400000)%Z then "5/2/2024, 9:00:00 AM"
  else if (t =? 1714726800000)%Z then "5/3/2024, 9:00:00 AM"
  else "another day".

(** The scripted text generation does not read the payload: a short
    stand-in replaces its JSON text. *)
Definition stringify (l : list ProcessedUpdate) : string :=
  "[" ++ Number_toString (List.length l) ++ " updates]".

(** The strings of the examples are ASCII: one code unit per character. *)
Definition codeUnits (s : string) : list string :=
  map (fun c => String c EmptyString) (list_ascii_of_string s).

(** The sample engine sorts by stable insertion, whatever the comparator
    answers: one of the orders the language allows where the comparator is
    not consistent. *)
#[export] Instance host : Host := {
  Date_getTime := getTime;
  Date_toLocaleString := localeString;
  JSON_parse := parse;
  JSON_stringify := stringify;
  toLowerCase := lower;
  trim := strip;
  String_codeUnits := codeUnits;
  Array_sort := stableSort;
  Array_sort_permutes := stableSort_perm;
  Array_sort_stable := fun _ _ _ _ => eq_refl
}.

(** The world: what the store holds, what the model answers when asked to
    classify, and what it answers when asked to analyse. *)
Record World : Type := {
  stored : Outcome (list Memory);
  classifier : Outcome string;
  analyst : Outcome string
}.

#[export] Instance runtime : IAgentRuntime World := {
  getMemories w := (stored w, w);
  useModel prompt w :=
    (if startsWith "Extract the standup type" prompt
     then classifier w else analyst w, w)
}.

Definition delivers : HandlerCallback World :=
  fun _ w => (Returned tt, w).

Definition deliveryFails : HandlerCallback World :=
  fun _ w => (Thrown (Rejected "channel unavailable"), w).

Definition mkUpdate (id name stamp : string) (ans : option string) : TeamMemberUpdate :=
  {| teamMemberId := id; teamMemberName := Some name; serverName := "dev";
     checkInType := "STANDUP"; timestamp := stamp; answers := ans |}.

Definition stored_update (u : TeamMemberUpdate) : Memory :=
  {| content := Some {| type_ := Some "team-member-update"; update := Some u |} |}.

Definition chat (t : string) : Memory :=
  {| content := Some {| type_ := Some t; update := None |} |}.

Definition day1 : string := "2024-05-01T09:00:00.000Z".
Definition day2 : string := "2024-05-02T09:00:00.000Z".
Definition day3 : string := "2024-05-03T09:00:00.000Z".

Definition alice1 : TeamMemberUpdate := mkUpdate "alice" "Alice" day1 (Some goodAnswers).
Definition alice3 : TeamMemberUpdate := mkUpdate "alice" "Alice" day3 (Some malformedAnswers).
Definition bob2 : TeamMemberUpdate := mkUpdate "bob" "Bob" day2 (Some goodAnswers).

Definition team : list Memory :=
  [ stored_update alice1; chat "message"; stored_update bob2; stored_update alice3 ].

(** The table the grouping builds for [team]: alice's newest update comes
    first in the sorted updates. *)
Definition teamTable : PropertyTable (list TeamMemberUpdate) :=
  [ ("alice", [alice3; alice1]); ("bob", [bob2]) ].

Definition worldWith (mems : list Memory) : World :=
  {| stored := Returned mems;
     classifier := Returned "SPRINT";
     analyst := Returned "On track." |}.

Definition request : Message :=
  {| messageText := Some "Can I see the sprint progress report?"; roomId := "room-1" |}.

Definition noState : State := {| stateStandupType := None |}.

(** A text given line by line, each line ended by a line feed. *)
Definition lines (l : list string) : string :=
  fold_right (fun line rest => line ++ nl ++ rest) EmptyString l.

(** An update whose timestamp is no date. *)
Definition undated : TeamMemberUpdate :=
  mkUpdate "carol" "Carol" "not a date" (Some goodAnswers).


(** Three updates of one member, the middle one without a date. *)
Definition dana1 : TeamMemberUpdate := mkUpdate "dana" "Dana" day1 None.
Definition danaX : TeamMemberUpdate := mkUpdate "dana" "Dana" "not a date" None.
Definition dana3 : TeamMemberUpdate := mkUpdate "dana" "Dana" day3 None.
Definition danas : list Memory :=
  [ stored_update dana1; stored_update danaX; stored_update dana3 ].

(** A member whose id names a member of [Object.prototype]. *)
Definition ctor : TeamMemberUpdate :=
  mkUpdate "constructor" "Eve" day1 (Some goodAnswers).

(** The text generation fails when asked for an analysis. *)
Definition worldWithoutAnalyst (mems : list Memory) : World :=
  {| stored := Returned mems;
     classifier := Returned "SPRINT";
     analyst := Thrown (Rejected "model unavailable") |}.

(** The text generation classifies the request as [answer]. *)
Definition worldClassifying (answer : string) (mems : list Memory) : World :=
  {| stored := Returned mems;
     classifier := Returned answer;
     analyst := Returned "On track." |}.

(** A message without text. *)
Definition silent : Message := {| messageText := None; roomId := "room-1" |}.

(** The store is unavailable. *)
Definition worldStoreDown : World :=
  {| stored := Thrown (Rejected "database unavailable");
     classifier := Returned "SPRINT";
     analyst := Returned "On track." |}.

(** The text generation is unavailable. *)
Definition worldModelDown (mems : list Memory) : World :=
  {| stored := Returned mems;
     classifier := Thrown (Rejected "model unavailable");
     analyst := Thrown (Rejected "model unavailable") |}.

(** Updates without answers, with [null] for answers, and with an answer
    that has no string conversion. *)
Definition gil : TeamMemberUpdate := mkUpdate "gil" "Gil" day1 None.
Definition hal : TeamMemberUpdate := mkUpdate "hal" "Hal" day1 (Some "null").
Definition fay : TeamMemberUpdate := mkUpdate "fay" "Fay" day1 (Some hiddenToString).

(** A channel that carries nothing but the apology. *)
Definition deliversApologyOnly : HandlerCallback World :=
  fun c w =>
    if String.eqb (text c)
         "❌ An error occurred while generating the report. Please try again."
    then (Returned tt, w)
    else (Thrown (Rejected "message too long"), w).

(** The request, sent from another room. *)
Definition requestElsewhere : Message :=
  {| messageText := Some "Can I see the sprint progress report?"; roomId := "room-2" |}.

(** A store with chat messages only. *)
Definition chatOnly : list Memory := [ chat "message"; chat "reply" ].

Definition reportOf (standupType : string) (w : World) : Outcome string :=
  fst (generateTeamReport standupType None (start w)).

End Sample.


(** * Vocabulary of the statements *)

(** The stored type tag of a memory. *)
Definition typeTag (memory : Memory) : option string :=
  match content memory with Some c => type_ c | None => None end.

(** The update payload of a memory, if it has one. *)
Definition payload (memory : Memory) : option TeamMemberUpdate :=
  match content memory with Some c => update c | None => None end.

(** What a filter by the tag [marker] keeps of one memory: its payload,
    when the memory carries the tag and a payload. *)
Definition kept (marker : string) (memory : Memory) : list TeamMemberUpdate :=
  match typeTag memory, payload memory with
  | Some tag, Some u => if String.eqb tag marker then [u] else []
  | _, _ => []
  end.

(** The update with its category replaced. *)
Definition setCheckInType (category : string) (u : TeamMemberUpdate)
  : TeamMemberUpdate :=
  {| teamMemberId := teamMemberId u;
     teamMemberName := teamMemberName u;
     serverName := serverName u;
     checkInType := category;
     timestamp := timestamp u;
     answers := answers u |}.

(** The memory with the category of its update replaced. *)
Definition withCheckInType (category : string) (memory : Memory) : Memory :=
  {| content :=
       option_map
         (fun c =>
            {| type_ := type_ c;
               update := option_map (setCheckInType category) (update c) |})
         (content memory) |}.

Section FrameVocabulary.
Context {World : Type}.

(** [R] relates the frame before a computation to the frame after it,
    whether the computation returns or throws. *)
Definition preserves (R : Frame World -> Frame World -> Prop)
           {A : Type} (m : M World A) : Prop :=
  forall f o f', m f = (o, f') -> R f f'.

(** The report only grows at its end. *)
Definition reportGrows (f f' : Frame World) : Prop :=
  exists txt, report f' = report f ++ txt.

(** The trace only grows at its end, by events that satisfy [ok]. *)
Definition traceGrows (ok : Event -> bool) (f f' : Frame World) : Prop :=
  exists evs, trace f' = (trace f ++ evs)%list /\ forallb ok evs = true.

(** When [m] returns, its value is the report as it then stands. *)
Definition yieldsReport (m : M World string) : Prop :=
  forall f s f', m f = (Returned s, f') -> s = report f'.

End FrameVocabulary.

Section ReportVocabulary.
Context {World : Type} {host : Host}.

Definition errorLine : string := "▫️ Error parsing update details" ++ nl.

Definition answerLine (question answer : string) : string :=
  "▫️ **" ++ question ++ "**: " ++ answer ++ nl.

(** The lines of the entries up to the first value that has no string
    conversion, and whether every value has one. *)
Fixpoint entryLines (entries : list (string * JsonValue)) : string :=
  match entries with
  | [] => EmptyString
  | e :: rest =>
      match ToString (snd e) with
      | Returned a => answerLine (fst e) a ++ entryLines rest
      | Thrown _ => EmptyString
      end
  end.

Fixpoint allConvert (entries : list (string * JsonValue)) : bool :=
  match entries with
  | [] => true
  | e :: rest =>
      match ToString (snd e) with
      | Returned _ => allConvert rest
      | Thrown _ => false
      end
  end.

(** What the display of one update's answers adds to the report. *)
Definition answersText (u : TeamMemberUpdate) : string :=
  match parseAnswers u with
  | Thrown _ => errorLine
  | Returned v =>
      match JSON_entries v with
      | Thrown _ => errorLine
      | Returned entries =>
          if allConvert entries then entryLines entries
          else entryLines entries ++ errorLine
      end
  end.

(** What the map over a member's updates yields for one update. *)
Definition processed (u : TeamMemberUpdate) : ProcessedUpdate :=
  match parseAnswers u with
  | Returned v =>
      Decoded {| decodedTeamMemberId := teamMemberId u;
                 decodedTeamMemberName := teamMemberName u;
                 decodedServerName := serverName u;
                 decodedCheckInType := checkInType u;
                 decodedTimestamp := timestamp u;
                 decodedAnswers := v |}
  | Thrown _ => Raw u
  end.

Definition joinText (l : list string) : string :=
  fold_right String.append EmptyString l.

Definition recentEntry (u : TeamMemberUpdate) : string :=
  (nl ++ "🕒 " ++ localeTime u ++ nl) ++ answersText u.

Definition rawEntry (u : TeamMemberUpdate) : string :=
  ("Update from " ++ localeTime u ++ ":" ++ nl) ++ answersText u.

Definition sectionHeader (id : string) (memberUpdates : list TeamMemberUpdate) : string :=
  "👤 **"
  ++ orElse (match memberUpdates with
             | first :: _ => teamMemberName first
             | [] => None
             end) "Unknown"
  ++ "** (ID: " ++ id ++ ")" ++ nl ++ nl.

Definition fallbackNotice : string :=
  "❌ Error generating analysis. Showing raw updates:" ++ nl ++ nl.

Definition separator : string := nl ++ "-------------------" ++ nl ++ nl.

(** The section of one member, given how the analysis request ended. *)
Definition sectionText (id : string) (memberUpdates : list TeamMemberUpdate)
           (analysis : Outcome string) : string :=
  sectionHeader id memberUpdates
  ++ match analysis with
     | Returned a =>
         ("📋 **Productivity Analysis**:" ++ nl ++ a ++ nl ++ nl)
         ++ ("📅 **Recent Updates**:" ++ nl)
         ++ joinText (map recentEntry (recentUpdates memberUpdates))
     | Thrown _ =>
         fallbackNotice ++ joinText (map rawEntry memberUpdates)
     end
  ++ separator.

(** [m] returns, leaves the world alone and appends exactly [txt]. *)
Definition renders (m : M World unit) (txt : string) : Prop :=
  forall f, exists f',
    m f = (Returned tt, f') /\ world f' = world f /\ report f' = report f ++ txt.

End ReportVocabulary.

Section GroupingVocabulary.
Context {host : Host}.

Definition memberIds (updates : list TeamMemberUpdate) : list string :=
  map teamMemberId updates.

(** The distinct elements of [l] in the order of their first occurrence,
    those already [seen] left out. *)
Fixpoint firstOccurrencesFrom (seen l : list string) : list string :=
  match l with
  | [] => []
  | k :: rest =>
      if existsb (String.eqb k) seen then firstOccurrencesFrom seen rest
      else k :: firstOccurrencesFrom (k :: seen) rest
  end.

Definition firstOccurrences (l : list string) : list string :=
  firstOccurrencesFrom [] l.


(** The updates of one member, in the order of the list. *)
Definition updatesOf (id : string) (updates : list TeamMemberUpdate)
  : list TeamMemberUpdate :=
  filter (fun u => String.eqb (teamMemberId u) id) updates.

(** The member's array as the table has it, empty when the table has none. *)
Definition ownItems (table : MemberTable) (id : string) : list TeamMemberUpdate :=
  match getOwn table id with Some items => items | None => [] end.

(** One turn of the grouping loop when it does not throw. *)
Definition addUpdate (table : MemberTable) (u : TeamMemberUpdate) : MemberTable :=
  Put table (teamMemberId u) (ownItems table (teamMemberId u) ++ [u])%list.

(** The timestamp is a time: [getTime()] is not [NaN]. *)
Definition parses (u : TeamMemberUpdate) : Prop :=
  Date_getTime (timestamp u) <> None.

(** The rank by which the comparator orders updates whose timestamps are
    times: the later the time, the lower the rank. *)
Definition recency (u : TeamMemberUpdate) : Z :=
  match Date_getTime (timestamp u) with
  | Some t => (- t)%Z
  | None => 0%Z
  end.

(** [a] is at least as recent as [b], both timestamps being times. *)
Definition newerOrSame (a b : TeamMemberUpdate) : Prop :=
  exists ta tb,
    Date_getTime (timestamp a) = Some ta
    /\ Date_getTime (timestamp b) = Some tb
    /\ (tb <= ta)%Z.

End GroupingVocabulary.

Section SectionsVocabulary.
Context {World : Type} {host : Host} {runtime : IAgentRuntime World}.

(** The sections written for [entries], the analysis requests being
    answered one after the other from the world [w]. *)
Fixpoint sectionsText (entries : list (string * list TeamMemberUpdate)) (w : World)
  : string :=
  match entries with
  | [] => EmptyString
  | entry :: rest =>
      let (analysis, w') :=
        useModel (analysisPrompt (map processed (snd entry))) w in
      sectionText (fst entry) (snd entry) analysis ++ sectionsText rest w'
  end.

(** The members' sections of the report for the updates [updates]. *)
Definition sectionsOf (updates : list TeamMemberUpdate)
  : list (string * list TeamMemberUpdate) :=
  Object_entries (fold_left addUpdate updates []).

End SectionsVocabulary.

Section TraceVocabulary.
Context {World : Type} {host : Host} {runtime : IAgentRuntime World}.

Definition isLog (e : Event) : bool :=
  match e with EvLog _ _ => true | _ => false end.

(** The prompts sent to the text generation, in order. *)
Fixpoint prompts (t : list Event) : list string :=
  match t with
  | [] => []
  | EvUseModel prompt :: rest => prompt :: prompts rest
  | _ :: rest => prompts rest
  end.

(** How often the store was asked for the memories. *)
Fixpoint fetches (t : list Event) : nat :=
  match t with
  | [] => 0
  | EvGetMemories :: rest => S (fetches rest)
  | _ :: rest => fetches rest
  end.

(** The analysis request made for one section. *)
Definition sectionPrompt (entry : string * list TeamMemberUpdate) : string :=
  analysisPrompt (map processed (snd entry)).

(** The report for the memories [memories], the analysis requests being
    answered from the world [w]. *)
Definition reportText (standupType : string) (memories : list Memory) (w : World)
  : string :=
  ("📊 **Team Progress Report - " ++ standupType ++ " Standups**" ++ nl ++ nl)
  ++ match selectUpdates standupType memories with
     | [] =>
         "No updates found for " ++ dq ++ standupType ++ dq
         ++ " standups in this room." ++ nl
     | _ :: _ => sectionsText (sectionsOf (selectUpdates standupType memories)) w
     end.

(** The time value of an update's timestamp, [None] for [NaN]. *)
Definition timeOf (u : TeamMemberUpdate) : option Z :=
  Date_getTime (timestamp u).

Definition sameTime (t : option Z) (u : TeamMemberUpdate) : bool :=
  match t, timeOf u with
  | Some a, Some b => (a =? b)%Z
  | None, None => true
  | _, _ => false
  end.

End TraceVocabulary.

(** * Properties *)

(** ** Text *)

Lemma append_assoc (a b c : string) : (a ++ b) ++ c = a ++ (b ++ c).
Proof.
  induction a as [|x a IH]; simpl; [reflexivity | now rewrite IH].
Qed.

Lemma append_nil_r (a : string) : a ++ EmptyString = a.
Proof.
  induction a as [|x a IH]; simpl; [reflexivity | now rewrite IH].
Qed.

Lemma startsWith_append (p s : string) : startsWith p (p ++ s) = true.
Proof.
  induction p as [|x p IH]; simpl; [reflexivity|].
  now rewrite Ascii.eqb_refl, IH.
Qed.

Lemma startsWith_append_r (p s t : string) :
  startsWith p s = true -> startsWith p (s ++ t) = true.
Proof.
  revert s; induction p as [|x p IH]; intros [|y s]; simpl; try easy.
  intros H. apply andb_true_iff in H as [Hx Hp].
  now rewrite Hx, (IH _ Hp).
Qed.

Lemma startsWith_trans (p q s : string) :
  startsWith p q = true -> startsWith q s = true -> startsWith p s = true.
Proof.
  revert q s. induction p as [|x p IH]; intros [|y q] [|z s]; cbn; try easy.
  intros H1 H2. apply andb_true_iff in H1 as [Hxy Hpq].
  apply andb_true_iff in H2 as [Hyz Hqs].
  apply Ascii.eqb_eq in Hxy. subst y. rewrite Hyz. cbn. now apply (IH q s).
Qed.

(** ** The filter *)

Section FilterFacts.
Context {host : Host}.

Lemma memoryFilter_tag (standupType : string) (memory : Memory) :
  memoryFilter standupType memory = true
  <-> typeTag memory = Some "team-member-update".
Proof.
  unfold memoryFilter, typeTag.
  destruct (content memory) as [c|]; [|easy].
  destruct (type_ c) as [t|]; [|easy].
  rewrite String.eqb_eq. split; [now intros -> | now intros [= ->]].
Qed.

Lemma present_In {A : Type} (l : list (option A)) (x : A) :
  In x (present l) <-> In (Some x) l.
Proof.
  induction l as [|[y|] l IH]; simpl; [tauto| |].
  - rewrite IH. split; intros [H|H]; auto; left; congruence.
  - rewrite IH. split; [auto | intros [H|H]; [discriminate | exact H]].
Qed.

(** Which updates reach the sort: those of the memories that carry the tag
    and a payload. *)
Lemma filteredUpdates_In (standupType : string) (memories : list Memory)
      (u : TeamMemberUpdate) :
  In u (filteredUpdates standupType memories)
  <-> exists m, In m memories
                /\ typeTag m = Some "team-member-update"
                /\ getUpdate m = Some u.
Proof.
  unfold filteredUpdates. rewrite present_In, in_map_iff. split.
  - intros (m & Hu & Hm). apply filter_In in Hm as [Hm Hf].
    exists m. now rewrite <- (memoryFilter_tag standupType).
  - intros (m & Hm & Ht & Hu). exists m. split; [exact Hu|].
    apply filter_In. split; [exact Hm|]. now apply memoryFilter_tag.
Qed.

End FilterFacts.

(** ** C2: what the filter chain keeps *)

Section FilterClaims.
Context {host : Host}.

Lemma filteredUpdates_kept (standupType : string) (memories : list Memory) :
  filteredUpdates standupType memories
  = flat_map (kept "team-member-update") memories.
Proof.
  unfold filteredUpdates.
  induction memories as [|m memories IH]; [reflexivity|].
  destruct m as [[[[tag|] up]|]];
    cbn [filter flat_map]; unfold memoryFilter at 1, kept at 1, typeTag, payload;
    cbv zeta; cbn [content type_ update app]; try exact IH.
  destruct (String.eqb tag "team-member-update"); [|destruct up; exact IH].
  cbn [map]. unfold getUpdate at 1. cbn [content update].
  destruct up; cbn [present app]; now rewrite IH.
Qed.

Lemma kept_withCheckInType (marker category : string) (memory : Memory) :
  kept marker (withCheckInType category memory)
  = map (setCheckInType category) (kept marker memory).
Proof.
  unfold kept, withCheckInType, typeTag, payload.
  destruct memory as [[[[tag|] [u|]]|]]; cbn; try reflexivity.
  now destruct (String.eqb tag marker).
Qed.

(** C2 (as the code has it).  The filter chain keeps, in the order of the
    store, the update payloads of the memories whose type tag is
    ['team-member-update']: a memory is kept exactly when it carries that tag
    and a payload.  The sort only rearranges what the chain keeps.  The
    callback of the first filter looks at the tag alone, and neither the
    category of the updates nor the requested category has any effect on
    what is kept. *)
Theorem filter_chain_keeps_tagged_payloads :
  forall (standupType : string) (memories : list Memory),
    filteredUpdates standupType memories
    = flat_map (kept "team-member-update") memories
    /\ Permutation (flat_map (kept "team-member-update") memories)
                   (selectUpdates standupType memories)
    /\ (forall memory : Memory,
          memoryFilter standupType memory = true
          <-> typeTag memory = Some "team-member-update")
    /\ (forall (otherType category : string),
          filteredUpdates otherType (map (withCheckInType category) memories)
          = map (setCheckInType category) (filteredUpdates standupType memories)).
Proof.
  intros standupType memories. repeat split.
  - apply filteredUpdates_kept.
  - rewrite <- (filteredUpdates_kept standupType). apply Array_sort_permutes.
  - apply memoryFilter_tag.
  - apply memoryFilter_tag.
  - intros otherType category. rewrite !filteredUpdates_kept.
    induction memories as [|m memories IH]; [reflexivity|].
    cbn [map flat_map]. now rewrite map_app, kept_withCheckInType, IH.
Qed.

End FilterClaims.

(** ** Reasoning about computations *)

(** Texts stay as written while goals are simplified. *)
#[local] Arguments String.append : simpl never.

Section Preservation.
Context {World : Type}.

Variable R : Frame World -> Frame World -> Prop.
Hypothesis R_refl : forall f, R f f.
Hypothesis R_trans : forall f g h, R f g -> R g h -> R f h.

Lemma preserves_ret {A : Type} (a : A) : preserves R (ret a).
Proof. intros f o f' [= _ <-]. apply R_refl. Qed.

Lemma preserves_throw {A : Type} (e : exn) : preserves R (@throw World A e).
Proof. intros f o f' [= _ <-]. apply R_refl. Qed.

Lemma preserves_eval {A : Type} (o : Outcome A) : preserves R (eval o).
Proof. intros f o' f' [= _ <-]. apply R_refl. Qed.

Lemma preserves_get_report : preserves R get_report.
Proof. intros f o f' [= _ <-]. apply R_refl. Qed.

Lemma preserves_bind {A B : Type} (m : M World A) (k : A -> M World B) :
  preserves R m -> (forall a, preserves R (k a)) -> preserves R (bind m k).
Proof.
  intros Hm Hk f o f'. unfold bind.
  destruct (m f) as [[a|e] g] eqn:E; intros H.
  - eapply R_trans; [eapply Hm, E | eapply Hk, H].
  - injection H as _ <-. eapply Hm, E.
Qed.

Lemma preserves_try_catch {A : Type} (m : M World A) (h : exn -> M World A) :
  preserves R m -> (forall e, preserves R (h e)) -> preserves R (try_catch m h).
Proof.
  intros Hm Hh f o f'. unfold try_catch.
  destruct (m f) as [[a|e] g] eqn:E; intros H.
  - injection H as _ <-. eapply Hm, E.
  - eapply R_trans; [eapply Hm, E | eapply Hh, H].
Qed.

Lemma preserves_for_each {A : Type} (l : list A) (body : A -> M World unit) :
  (forall x, preserves R (body x)) -> preserves R (for_each l body).
Proof.
  intros Hb. induction l as [|x l IH]; simpl.
  - apply preserves_ret.
  - apply preserves_bind; [apply Hb | intros _; exact IH].
Qed.

Lemma preserves_map_M {A B : Type} (fn : A -> M World B) (l : list A) :
  (forall x, preserves R (fn x)) -> preserves R (map_M fn l).
Proof.
  intros Hf. induction l as [|x l IH]; simpl.
  - apply preserves_ret.
  - apply preserves_bind; [apply Hf | intros y].
    apply preserves_bind; [exact IH | intros ys; apply preserves_ret].
Qed.

Lemma preserves_if {A : Type} (b : bool) (m1 m2 : M World A) :
  preserves R m1 -> preserves R m2 -> preserves R (if b then m1 else m2).
Proof. now destruct b. Qed.

End Preservation.

Section FrameRelations.
Context {World : Type}.

Lemma reportGrows_refl (f : Frame World) : reportGrows f f.
Proof. exists EmptyString. now rewrite append_nil_r. Qed.

Lemma reportGrows_trans (f g h : Frame World) :
  reportGrows f g -> reportGrows g h -> reportGrows f h.
Proof.
  intros [t1 H1] [t2 H2]. exists (t1 ++ t2).
  now rewrite H2, H1, append_assoc.
Qed.

Lemma traceGrows_refl (ok : Event -> bool) (f : Frame World) : traceGrows ok f f.
Proof. exists []. now rewrite app_nil_r. Qed.

Lemma traceGrows_trans (ok : Event -> bool) (f g h : Frame World) :
  traceGrows ok f g -> traceGrows ok g h -> traceGrows ok f h.
Proof.
  intros (e1 & H1 & O1) (e2 & H2 & O2). exists (e1 ++ e2)%list. split.
  - now rewrite H2, H1, app_assoc.
  - now rewrite forallb_app, O1, O2.
Qed.

Lemma grows_emit (e : Event) : preserves (@reportGrows World) (emit e).
Proof.
  intros f o f' [= _ <-]. exists EmptyString. simpl. now rewrite append_nil_r.
Qed.

Lemma grows_log (l : Level) (s : string) : preserves (@reportGrows World) (log l s).
Proof. apply grows_emit. Qed.

Lemma grows_external {A : Type} (e : Event) (call : World -> Outcome A * World) :
  preserves (@reportGrows World) (external e call).
Proof.
  intros f o f'. unfold external. destruct (call (world f)).
  intros [= _ <-]. exists EmptyString. simpl. now rewrite append_nil_r.
Qed.

Lemma grows_append_report (s : string) : preserves (@reportGrows World) (append_report s).
Proof. intros f o f' [= _ <-]. now exists s. Qed.

Lemma traces_emit (ok : Event -> bool) (e : Event) :
  ok e = true -> preserves (@traceGrows World ok) (emit e).
Proof.
  intros H f o f' [= _ <-]. exists [e]. simpl. now rewrite H.
Qed.

Lemma traces_external {A : Type} (ok : Event -> bool) (e : Event)
      (call : World -> Outcome A * World) :
  ok e = true -> preserves (@traceGrows World ok) (external e call).
Proof.
  intros H f o f'. unfold external. destruct (call (world f)).
  intros [= _ <-]. exists [e]. simpl. now rewrite H.
Qed.

Lemma traces_append_report (ok : Event -> bool) (s : string) :
  preserves (@traceGrows World ok) (append_report s).
Proof. intros f o f' [= _ <-]. exists []. simpl. now rewrite app_nil_r. Qed.

Lemma traces_set_report (ok : Event -> bool) (s : string) :
  preserves (@traceGrows World ok) (set_report s).
Proof. intros f o f' [= _ <-]. exists []. simpl. now rewrite app_nil_r. Qed.

End FrameRelations.

(** ** Rendering *)

Section Rendering.
Context {World : Type} {host : Host}.


Lemma renders_ret : renders (World:=World) (ret tt) EmptyString.
Proof. intros f. exists f. now rewrite append_nil_r. Qed.

Lemma renders_log (l : Level) (s : string) :
  renders (World:=World) (log l s) EmptyString.
Proof.
  intros f. eexists. split; [reflexivity|]. simpl. now rewrite append_nil_r.
Qed.

Lemma renders_append_report (s : string) :
  renders (World:=World) (append_report s) s.
Proof. intros f. eexists. split; [reflexivity|]. now simpl. Qed.

Lemma renders_bind (m k : M World unit) (t1 t2 : string) :
  renders m t1 -> renders k t2 -> renders (m ;; k) (t1 ++ t2).
Proof.
  intros Hm Hk f. destruct (Hm f) as (g & Eg & Wg & Rg).
  destruct (Hk g) as (h & Eh & Wh & Rh).
  exists h. unfold bind. rewrite Eg, Eh. repeat split.
  - congruence.
  - now rewrite Rh, Rg, append_assoc.
Qed.

Lemma renders_for_each {A : Type} (body : A -> M World unit) (g : A -> string)
      (l : list A) :
  (forall x, renders (body x) (g x)) ->
  renders (for_each l body) (joinText (map g l)).
Proof.
  intros Hb. induction l as [|x l IH]; simpl.
  - apply renders_ret.
  - apply renders_bind; [apply Hb | exact IH].
Qed.

(** The loop over the entries of one update: it appends the lines of the
    entries that convert and stops, throwing, at the first that does not. *)
Lemma entries_loop (entries : list (string * JsonValue)) (f : Frame World) :
  exists o f',
    for_each entries displayEntry f = (o, f')
    /\ isReturned o = allConvert entries
    /\ world f' = world f
    /\ report f' = report f ++ entryLines entries
    /\ trace f' = trace f.
Proof.
  revert f. induction entries as [|e entries IH]; intros f.
  - exists (Returned tt), f. cbn. now rewrite append_nil_r.
  - cbn [for_each allConvert entryLines]. unfold bind at 1.
    unfold displayEntry at 1, bind at 1, eval.
    destruct (ToString (snd e)) as [a|err].
    + unfold append_report at 1.
      match goal with |- context [for_each entries displayEntry ?g] =>
        destruct (IH g) as (o & f' & E & H1 & H2 & H3 & H4) end.
      exists o, f'. cbn in H2, H3, H4. repeat split; try assumption.
      rewrite H3. unfold answerLine. now rewrite !append_assoc.
    + exists (Thrown err), f. cbn. now rewrite append_nil_r.
Qed.

Lemma displayAnswers_renders (u : TeamMemberUpdate) :
  renders (World:=World) (displayAnswers u) (answersText u).
Proof.
  intros f. unfold displayAnswers, answersText, try_catch.
  unfold bind at 1, eval at 1.
  destruct (parseAnswers u) as [v|err].
  - unfold bind at 1, eval at 1.
    destruct (JSON_entries v) as [entries|err].
    + destruct (entries_loop entries f) as (o & g & E & H1 & H2 & H3 & H4).
      rewrite E, <- H1. destruct o as [[]|err]; cbn [isReturned].
      * exists g. auto.
      * eexists. split; [reflexivity|]. cbn. split; [exact H2|].
        rewrite H3. unfold errorLine. now rewrite append_assoc.
    + eexists. split; [reflexivity|]. now cbn.
  - eexists. split; [reflexivity|]. now cbn.
Qed.

Lemma displayRecent_renders (u : TeamMemberUpdate) :
  renders (World:=World) (displayRecent u) (recentEntry u).
Proof.
  apply renders_bind; [apply renders_append_report | apply displayAnswers_renders].
Qed.

Lemma displayRaw_renders (u : TeamMemberUpdate) :
  renders (World:=World) (displayRaw u) (rawEntry u).
Proof.
  apply renders_bind; [apply renders_append_report | apply displayAnswers_renders].
Qed.

(** The map over a member's updates never throws and writes nothing. *)
Lemma processUpdate_run (u : TeamMemberUpdate) (f : Frame World) :
  exists f',
    processUpdate u f = (Returned (processed u), f')
    /\ world f' = world f /\ report f' = report f.
Proof.
  unfold processUpdate, processed, try_catch, bind, eval.
  destruct (parseAnswers u) as [v|err]; eexists; (split; [reflexivity|]); now cbn.
Qed.

Lemma processUpdates_run (l : list TeamMemberUpdate) (f : Frame World) :
  exists f',
    map_M processUpdate l f = (Returned (map processed l), f')
    /\ world f' = world f /\ report f' = report f.
Proof.
  revert f. induction l as [|u l IH]; intros f.
  - exists f. now cbn.
  - cbn [map_M map]. unfold bind at 1.
    destruct (processUpdate_run u f) as (g & Eg & Wg & Rg). rewrite Eg.
    unfold bind at 1. destruct (IH g) as (h & Eh & Wh & Rh). rewrite Eh.
    exists h. cbn. repeat split; congruence.
Qed.

End Rendering.

(** ** One member's section *)

Section SectionFacts.
Context {World : Type} {host : Host} {runtime : IAgentRuntime World}.

(** A section is always completed: its text is determined by the member's
    updates and by how the analysis request ended. *)
Lemma memberSection_run (id : string) (memberUpdates : list TeamMemberUpdate)
      (f : Frame World) (analysis : Outcome string) (w' : World) :
  useModel (analysisPrompt (map processed memberUpdates)) (world f) = (analysis, w') ->
  exists f',
    memberSection (id, memberUpdates) f = (Returned tt, f')
    /\ world f' = w'
    /\ report f' = report f ++ sectionText id memberUpdates analysis.
Proof.
  intros Hmodel. unfold memberSection. cbn [fst snd].
  unfold bind at 1, log at 1, emit at 1.
  unfold bind at 1, append_report at 1. cbn [world report trace].
  unfold bind at 1.
  match goal with |- context [map_M processUpdate memberUpdates ?g] =>
    destruct (processUpdates_run memberUpdates g) as (f1 & E1 & W1 & R1) end.
  rewrite E1. cbn [world report] in W1, R1.
  unfold bind at 1, log at 1, emit at 1.
  unfold bind at 1, try_catch at 1, bind at 1, external at 1.
  cbn [world report trace]. rewrite W1, Hmodel.
  destruct analysis as [a|err].
  - unfold bind at 1, append_report at 1. cbn [world report trace].
    unfold bind at 1, append_report at 1. cbn [world report trace].
    match goal with |- context [for_each ?l displayRecent ?g] =>
      destruct (renders_for_each displayRecent recentEntry l
                  displayRecent_renders g) as (f2 & E2 & W2 & R2) end.
    rewrite E2. cbn [world report] in W2, R2.
    eexists. split; [reflexivity|]. cbn [world report]. split; [exact W2|].
    rewrite R2, R1. unfold sectionText, sectionHeader.
    now rewrite !append_assoc.
  - unfold bind at 1, log at 1, emit at 1.
    unfold bind at 1, append_report at 1. cbn [world report trace].
    match goal with |- context [for_each ?l displayRaw ?g] =>
      destruct (renders_for_each displayRaw rawEntry l
                  displayRaw_renders g) as (f2 & E2 & W2 & R2) end.
    rewrite E2. cbn [world report] in W2, R2.
    eexists. split; [reflexivity|]. cbn [world report]. split; [exact W2|].
    rewrite R2, R1. unfold sectionText, sectionHeader, fallbackNotice.
    now rewrite !append_assoc.
Qed.

(** The loop over the members completes, one section each, whatever the
    text generation and the decoding do. *)
Lemma sections_run (entries : list (string * list TeamMemberUpdate)) (f : Frame World) :
  exists f',
    for_each entries memberSection f = (Returned tt, f')
    /\ report f' = report f ++ sectionsText entries (world f).
Proof.
  revert f. induction entries as [|[id memberUpdates] entries IH]; intros f.
  - exists f. cbn. now rewrite append_nil_r.
  - cbn [for_each sectionsText fst snd]. unfold bind at 1.
    destruct (useModel (analysisPrompt (map processed memberUpdates)) (world f))
      as [analysis w'] eqn:E.
    destruct (memberSection_run id memberUpdates f analysis w' E)
      as (g & Eg & Wg & Rg).
    rewrite Eg. destruct (IH g) as (h & Eh & Rh).
    exists h. split; [exact Eh|]. now rewrite Rh, Rg, Wg, append_assoc.
Qed.

End SectionFacts.

(** ** What the report generator does to the frame *)

Ltac preserve_by refl trans :=
  repeat first
    [ apply (preserves_ret _ refl)
    | apply (preserves_throw _ refl)
    | apply (preserves_eval _ refl)
    | apply (preserves_get_report _ refl)
    | apply (preserves_bind _ trans); [|intros ?]
    | apply (preserves_try_catch _ trans); [|intros ?]
    | apply (preserves_for_each _ refl trans); intros ?
    | apply (preserves_map_M _ refl trans); intros ?
    | apply preserves_if ].

Ltac report_grows :=
  repeat first
    [ progress preserve_by uconstr:(@reportGrows_refl _) uconstr:(@reportGrows_trans _)
    | apply grows_log | apply grows_emit | apply grows_external
    | apply grows_append_report ].

Ltac trace_grows :=
  repeat first
    [ progress preserve_by uconstr:(@traceGrows_refl _ _) uconstr:(@traceGrows_trans _ _)
    | apply traces_emit; reflexivity
    | apply traces_external; reflexivity
    | apply traces_append_report
    | apply traces_set_report ].

Section GeneratorFacts.
Context {World : Type} {host : Host} {runtime : IAgentRuntime World}.

Lemma grows_displayAnswers (u : TeamMemberUpdate) :
  preserves (@reportGrows World) (displayAnswers u).
Proof. unfold displayAnswers, displayEntry, log. report_grows. Qed.

Lemma grows_memberSection (entry : string * list TeamMemberUpdate) :
  preserves (@reportGrows World) (memberSection entry).
Proof.
  unfold memberSection, processUpdate, displayRecent, displayRaw, log.
  report_grows; apply grows_displayAnswers.
Qed.

Lemma grows_groupByMember (updates : list TeamMemberUpdate) (table : MemberTable) :
  preserves (@reportGrows World) (groupByMember updates table).
Proof.
  revert table. induction updates as [|u updates IH]; intros table;
    cbn [groupByMember].
  - report_grows.
  - apply (preserves_bind _ (@reportGrows_trans World)); [|intros t; apply IH].
    unfold groupUpdate, log.
    apply (preserves_bind _ (@reportGrows_trans World)); [apply grows_emit|].
    intros _. cbv zeta. destruct (Get _ (teamMemberId u)); report_grows.
Qed.

Lemma quiet_displayAnswers (u : TeamMemberUpdate) :
  preserves (@traceGrows World notCallback) (displayAnswers u).
Proof. unfold displayAnswers, displayEntry, log. trace_grows. Qed.

Lemma quiet_memberSection (entry : string * list TeamMemberUpdate) :
  preserves (@traceGrows World notCallback) (memberSection entry).
Proof.
  unfold memberSection, processUpdate, displayRecent, displayRaw, log.
  trace_grows; apply quiet_displayAnswers.
Qed.

Lemma quiet_groupByMember (updates : list TeamMemberUpdate) (table : MemberTable) :
  preserves (@traceGrows World notCallback) (groupByMember updates table).
Proof.
  revert table. induction updates as [|u updates IH]; intros table;
    cbn [groupByMember].
  - trace_grows.
  - apply (preserves_bind _ (@traceGrows_trans World notCallback));
      [|intros t; apply IH].
    unfold groupUpdate, log.
    apply (preserves_bind _ (@traceGrows_trans World notCallback));
      [apply traces_emit; reflexivity|].
    intros _. cbv zeta. destruct (Get _ (teamMemberId u)); trace_grows.
Qed.

(** The report generator never invokes a delivery callback. *)
Lemma quiet_generateTeamReport (standupType : string) (roomId_ : option string) :
  preserves (@traceGrows World notCallback) (generateTeamReport standupType roomId_).
Proof.
  unfold generateTeamReport, log. trace_grows.
  all: first [apply quiet_groupByMember | apply quiet_memberSection].
Qed.

Lemma yieldsReport_get : yieldsReport (World:=World) get_report.
Proof. now intros f s f' [= <- <-]. Qed.

Lemma yieldsReport_bind {A : Type} (m : M World A) (k : A -> M World string) :
  (forall a, yieldsReport (k a)) -> yieldsReport (bind m k).
Proof.
  intros Hk f s f'. unfold bind. destruct (m f) as [[a|e] g]; [apply Hk | easy].
Qed.

(** What follows the assignment of the heading to [report]. *)
Lemma after_heading (standupType : string) (updates : list TeamMemberUpdate) :
  let rest : M World string :=
    if (List.length updates =? 0)%nat then
      append_report (noUpdatesMessage standupType) ;;
      get_report
    else
      updatesByMember <- groupByMember updates [] ;;
      for_each (Object_entries updatesByMember) memberSection ;;
      log Info "Successfully generated team report" ;;
      log Info "=== GENERATE TEAM REPORT END ===" ;;
      get_report in
  yieldsReport rest /\ preserves (@reportGrows World) rest.
Proof.
  cbv zeta. split.
  - destruct (List.length updates =? 0)%nat;
      repeat (apply yieldsReport_bind; intros ?); apply yieldsReport_get.
  - report_grows; first [apply grows_groupByMember | apply grows_memberSection].
Qed.

End GeneratorFacts.

(** ** Plain objects *)

Section ObjectFacts.
Context {V : Type}.

Lemma getOwn_Put (obj : PropertyTable V) (key k : string) (v : V) :
  getOwn (Put obj key v) k = if String.eqb key k then Some v else getOwn obj k.
Proof.
  induction obj as [|[k0 v0] obj IH]; cbn.
  - reflexivity.
  - destruct (String.eqb k0 key) eqn:E0; cbn.
    + apply String.eqb_eq in E0 as ->.
      destruct (String.eqb key k); reflexivity.
    + rewrite IH. destruct (String.eqb k0 k) eqn:E1; [|reflexivity].
      apply String.eqb_eq in E1 as ->. now rewrite String.eqb_sym, E0.
Qed.

Lemma getOwn_None (obj : PropertyTable V) (key : string) :
  getOwn obj key = None <-> existsb (String.eqb key) (map fst obj) = false.
Proof.
  induction obj as [|[k0 v0] obj IH]; cbn; [tauto|].
  rewrite (String.eqb_sym key k0). destruct (String.eqb k0 key); cbn; [easy | exact IH].
Qed.

Lemma keys_Put (obj : PropertyTable V) (key : string) (v : V) :
  map fst (Put obj key v)
  = if existsb (String.eqb key) (map fst obj) then map fst obj
    else (map fst obj ++ [key])%list.
Proof.
  induction obj as [|[k0 v0] obj IH]; cbn; [reflexivity|].
  rewrite (String.eqb_sym key k0). destruct (String.eqb k0 key) eqn:E; cbn.
  - reflexivity.
  - rewrite IH. now destruct (existsb (String.eqb key) (map fst obj)).
Qed.

Lemma getOwn_In (obj : PropertyTable V) (key : string) (v : V) :
  NoDup (map fst obj) -> In (key, v) obj -> getOwn obj key = Some v.
Proof.
  induction obj as [|[k0 v0] obj IH]; cbn; [easy|].
  intros Hnd [H|H].
  - injection H as -> ->. now rewrite String.eqb_refl.
  - inversion Hnd as [|? ? Hnot Hnd']; subst.
    destruct (String.eqb k0 key) eqn:E.
    + apply String.eqb_eq in E as ->. exfalso. apply Hnot.
      now apply (in_map fst) in H.
    + now apply IH.
Qed.

Lemma In_getOwn (obj : PropertyTable V) (key : string) (v : V) :
  getOwn obj key = Some v -> In (key, v) obj.
Proof.
  induction obj as [|[k0 v0] obj IH]; cbn; [easy|].
  destruct (String.eqb k0 key) eqn:E.
  - apply String.eqb_eq in E as ->. intros [= ->]. now left.
  - intros H. right. now apply IH.
Qed.

End ObjectFacts.

(** ** Sorting *)

Lemma StronglySorted_filter {A : Type} (R : A -> A -> Prop) (p : A -> bool)
      (l : list A) :
  StronglySorted R l -> StronglySorted R (filter p l).
Proof.
  induction 1 as [|x l Hs IH Hall]; cbn; [constructor|].
  destruct (p x); [|exact IH]. constructor; [exact IH|].
  rewrite Forall_forall in *. intros y Hy. apply Hall.
  now apply filter_In in Hy.
Qed.

Lemma StronglySorted_firstn {A : Type} (R : A -> A -> Prop) (n : nat)
      (l : list A) :
  StronglySorted R l -> StronglySorted R (firstn n l).
Proof.
  intros Hs. revert n. induction Hs as [|x l Hs IH Hall]; intros [|n]; cbn;
    try constructor.
  - apply IH.
  - rewrite Forall_forall in *. intros y Hy. apply Hall.
    rewrite <- (firstn_skipn n l). apply in_or_app. now left.
Qed.

Section TimestampOrder.
Context {host : Host}.

(** Sorting the empty array. *)
Lemma Array_sort_nil (comparefn : TeamMemberUpdate -> TeamMemberUpdate -> option Z) :
  Array_sort comparefn [] = [].
Proof. apply Permutation_nil, Array_sort_permutes. Qed.

(** Where every timestamp parses the comparator is consistent: it ranks the
    updates by their time, the newest first. *)
Lemma byTimestampDesc_ranked (l : list TeamMemberUpdate) :
  Forall parses l -> rankedBy byTimestampDesc recency l.
Proof.
  intros H x y Hx Hy. rewrite Forall_forall in H.
  pose proof (H x Hx) as Px. pose proof (H y Hy) as Py.
  unfold sortCompare, byTimestampDesc, recency, parses in *.
  destruct (Date_getTime (timestamp x)) as [tx|]; [|easy].
  destruct (Date_getTime (timestamp y)) as [ty|]; [|easy].
  f_equal. lia.
Qed.

(** With timestamps that all parse, the engine's sort is the stable one. *)
Lemma Array_sort_parsed (l : list TeamMemberUpdate) :
  Forall parses l -> Array_sort byTimestampDesc l = stableSort byTimestampDesc l.
Proof.
  intros H. apply (Array_sort_stable byTimestampDesc recency).
  now apply byTimestampDesc_ranked.
Qed.

(** With timestamps that all parse, the updates are sorted newest first. *)
Lemma sort_newest_first (l : list TeamMemberUpdate) :
  Forall parses l -> StronglySorted newerOrSame (Array_sort byTimestampDesc l).
Proof.
  intros Hl. rewrite (Array_sort_parsed l Hl). revert Hl.
  apply (stableSort_sorted byTimestampDesc newerOrSame parses).
  - intros x y Hx Hy. unfold staysBefore, byTimestampDesc, newerOrSame, parses in *.
    destruct (Date_getTime (timestamp x)) as [tx|]; [|easy].
    destruct (Date_getTime (timestamp y)) as [ty|]; [|easy].
    intros H. exists tx, ty. repeat split. lia.
  - intros x y Hx Hy. unfold staysBefore, byTimestampDesc, newerOrSame, parses in *.
    destruct (Date_getTime (timestamp x)) as [tx|]; [|easy].
    destruct (Date_getTime (timestamp y)) as [ty|]; [|easy].
    intros H. exists ty, tx. repeat split. lia.
  - intros x y z _ _ _ (tx & ty & Hx & Hy & Hxy) (ty' & tz & Hy' & Hz & Hyz).
    exists tx, tz. repeat split; auto. rewrite Hy in Hy'. injection Hy' as <-. lia.
Qed.

End TimestampOrder.

(** ** Enumeration of a plain object *)

Section EntriesFacts.
Context {V : Type}.

Lemma filter_split_perm {A : Type} (p : A -> bool) (l : list A) :
  Permutation l (filter p l ++ filter (fun x => negb (p x)) l).
Proof.
  induction l as [|x l IH]; cbn; [reflexivity|].
  destruct (p x); cbn.
  - now apply perm_skip.
  - rewrite <- Permutation_middle. now apply perm_skip.
Qed.

Lemma Object_entries_perm (obj : PropertyTable V) :
  Permutation obj (Object_entries obj).
Proof.
  unfold Object_entries.
  rewrite <- (stableSort_perm indexOrder). apply filter_split_perm.
Qed.




End EntriesFacts.

(** ** Grouping *)

Section FirstOccurrences.

Lemma existsb_eqb_In (k : string) (l : list string) :
  existsb (String.eqb k) l = true <-> In k l.
Proof.
  rewrite existsb_exists. split.
  - intros (x & Hx & E). apply String.eqb_eq in E. now subst.
  - intros H. exists k. split; [exact H | apply String.eqb_refl].
Qed.

Lemma existsb_eqb_not_In (k : string) (l : list string) :
  existsb (String.eqb k) l = false <-> ~ In k l.
Proof.
  rewrite <- existsb_eqb_In. now destruct (existsb (String.eqb k) l).
Qed.

Lemma firstOccurrencesFrom_ext (s1 s2 l : list string) :
  (forall x, In x s1 <-> In x s2) ->
  firstOccurrencesFrom s1 l = firstOccurrencesFrom s2 l.
Proof.
  revert s1 s2. induction l as [|k l IH]; intros s1 s2 H; cbn; [reflexivity|].
  assert (E : existsb (String.eqb k) s1 = existsb (String.eqb k) s2).
  { destruct (existsb (String.eqb k) s2) eqn:E2.
    - apply existsb_eqb_In. apply H. now apply existsb_eqb_In.
    - apply existsb_eqb_not_In. rewrite H. now apply existsb_eqb_not_In. }
  rewrite E. destruct (existsb (String.eqb k) s2); [now apply IH|].
  f_equal. apply IH. intros x. cbn. now rewrite H.
Qed.

Lemma firstOccurrencesFrom_In (seen l : list string) (x : string) :
  In x (firstOccurrencesFrom seen l) <-> In x l /\ ~ In x seen.
Proof.
  revert seen. induction l as [|k l IH]; intros seen; cbn; [tauto|].
  destruct (existsb (String.eqb k) seen) eqn:E.
  - apply existsb_eqb_In in E. rewrite IH. split.
    + tauto.
    + intros [[<-|H] Hn]; tauto.
  - apply existsb_eqb_not_In in E. cbn. rewrite IH. cbn. split.
    + intros [<-|[H Hn]]; [tauto|]. split; [tauto|]. intros Hs. apply Hn. now right.
    + intros [[<-|H] Hn]; [now left|].
      destruct (String.eqb_spec k x) as [->|Hne]; [now left|].
      right. split; [exact H|]. intros [Hk|Hs]; [now apply Hne | now apply Hn].
Qed.

Lemma firstOccurrencesFrom_NoDup (seen l : list string) :
  NoDup (firstOccurrencesFrom seen l).
Proof.
  revert seen. induction l as [|k l IH]; intros seen; cbn; [constructor|].
  destruct (existsb (String.eqb k) seen); [apply IH|].
  constructor; [|apply IH].
  rewrite firstOccurrencesFrom_In. cbn. tauto.
Qed.

End FirstOccurrences.

Section GroupingFacts.
Context {World : Type}.

Lemma Put_Put {V : Type} (obj : PropertyTable V) (key : string) (v v' : V) :
  Put (Put obj key v) key v' = Put obj key v'.
Proof.
  induction obj as [|[k0 v0] obj IH]; cbn.
  - now rewrite String.eqb_refl.
  - destruct (String.eqb k0 key) eqn:E; cbn; rewrite E; [reflexivity|].
    now rewrite IH.
Qed.

(** A turn of the loop on a key that [Object.prototype] does not have. *)
Lemma groupUpdate_run (table : MemberTable) (u : TeamMemberUpdate) (f : Frame World) :
  inherited (teamMemberId u) = false ->
  exists f',
    groupUpdate table u f = (Returned (addUpdate table u), f')
    /\ world f' = world f /\ report f' = report f.
Proof.
  intros Hi. unfold groupUpdate, addUpdate, ownItems.
  unfold bind at 1, log at 1, emit at 1. cbv zeta. unfold Get.
  destruct (getOwn table (teamMemberId u)) as [items|] eqn:E.
  - rewrite E. eexists. split; [reflexivity|]. now cbn.
  - rewrite Hi, getOwn_Put, String.eqb_refl, Put_Put.
    eexists. split; [reflexivity|]. now cbn.
Qed.

(** On a key that [Object.prototype] has, and the table has not, the turn
    throws. *)
Lemma groupUpdate_throws (table : MemberTable) (u : TeamMemberUpdate) (f : Frame World) :
  inherited (teamMemberId u) = true ->
  getOwn table (teamMemberId u) = None ->
  exists e f', groupUpdate table u f = (Thrown e, f').
Proof.
  intros Hi Hn. unfold groupUpdate.
  unfold bind at 1, log at 1, emit at 1. cbv zeta. unfold Get.
  repeat first [rewrite Hn | rewrite Hi]. eexists. eexists. reflexivity.
Qed.

Lemma groupByMember_run (updates : list TeamMemberUpdate) (table : MemberTable)
      (f : Frame World) :
  (forall u, In u updates -> inherited (teamMemberId u) = false) ->
  exists f',
    groupByMember updates table f = (Returned (fold_left addUpdate updates table), f')
    /\ world f' = world f /\ report f' = report f.
Proof.
  revert table f. induction updates as [|u updates IH]; intros table f H.
  - exists f. now cbn.
  - cbn [groupByMember fold_left]. unfold bind at 1.
    destruct (groupUpdate_run table u f) as (g & Eg & Wg & Rg).
    { apply H. now left. }
    rewrite Eg.
    destruct (IH (addUpdate table u) g) as (h & Eh & Wh & Rh).
    { intros v Hv. apply H. now right. }
    exists h. repeat split; congruence.
Qed.

(** The loop completes only on keys that [Object.prototype] does not
    have. *)
Lemma groupUpdate_returned (table table' : MemberTable) (u : TeamMemberUpdate)
      (f f' : Frame World) :
  (forall k, In k (map fst table) -> inherited k = false) ->
  groupUpdate table u f = (Returned table', f') ->
  inherited (teamMemberId u) = false.
Proof.
  intros Hkeys Hrun. destruct (inherited (teamMemberId u)) eqn:Hi; [|reflexivity].
  destruct (getOwn table (teamMemberId u)) as [items|] eqn:Hown.
  - apply In_getOwn, (in_map fst) in Hown. cbn in Hown.
    now rewrite (Hkeys _ Hown) in Hi.
  - destruct (groupUpdate_throws table u f Hi Hown) as (e & g & E). congruence.
Qed.

Lemma groupByMember_returned (updates : list TeamMemberUpdate)
      (table table' : MemberTable) (f f' : Frame World) :
  (forall k, In k (map fst table) -> inherited k = false) ->
  groupByMember updates table f = (Returned table', f') ->
  forall u, In u updates -> inherited (teamMemberId u) = false.
Proof.
  revert table f. induction updates as [|u updates IH]; intros table f Hkeys Hrun;
    [easy|].
  cbn [groupByMember] in Hrun. unfold bind at 1 in Hrun.
  destruct (groupUpdate table u f) as [[t1|e] g] eqn:E; [|discriminate].
  pose proof (groupUpdate_returned _ _ _ _ _ Hkeys E) as Hi.
  destruct (groupUpdate_run table u f Hi) as (g' & E' & _).
  rewrite E in E'. injection E' as -> _.
  intros v [<-|Hv]; [exact Hi|].
  apply (IH (addUpdate table u) g); [|exact Hrun|exact Hv].
  intros k Hk. unfold addUpdate in Hk. rewrite keys_Put in Hk.
  destruct (existsb (String.eqb (teamMemberId u)) (map fst table));
    [now apply Hkeys|].
  apply in_app_iff in Hk as [Hk|[<-|[]]]; [now apply Hkeys | exact Hi].
Qed.

(** The keys of the table, in creation order: the first occurrences. *)
Lemma keys_grouped (updates : list TeamMemberUpdate) (table : MemberTable) :
  map fst (fold_left addUpdate updates table)
  = (map fst table ++ firstOccurrencesFrom (map fst table) (memberIds updates))%list.
Proof.
  revert table. induction updates as [|u updates IH]; intros table; cbn.
  - now rewrite app_nil_r.
  - rewrite IH. unfold addUpdate at 1 2. rewrite keys_Put.
    destruct (existsb (String.eqb (teamMemberId u)) (map fst table)) eqn:E.
    + reflexivity.
    + rewrite <- app_assoc. cbn. do 2 f_equal.
      apply firstOccurrencesFrom_ext. intros x. rewrite in_app_iff. cbn. tauto.
Qed.

(** The array of each member: the member's updates, in the order of the
    list. *)
Lemma items_grouped (updates : list TeamMemberUpdate) (table : MemberTable)
      (id : string) :
  ownItems (fold_left addUpdate updates table) id
  = (ownItems table id ++ updatesOf id updates)%list.
Proof.
  revert table. induction updates as [|u updates IH]; intros table; cbn.
  - now rewrite app_nil_r.
  - rewrite IH. unfold addUpdate, ownItems at 1. rewrite getOwn_Put.
    destruct (String.eqb (teamMemberId u) id) eqn:E.
    + apply String.eqb_eq in E. subst id. now rewrite <- app_assoc.
    + reflexivity.
Qed.

(** The table built from the empty object. *)
Lemma grouped_sections (updates : list TeamMemberUpdate) :
  let table := fold_left addUpdate updates [] in
  map fst table = firstOccurrences (memberIds updates)
  /\ NoDup (map fst table)
  /\ (forall id items, In (id, items) table ->
        items = updatesOf id updates /\ In id (memberIds updates)).
Proof.
  cbv zeta. pose proof (keys_grouped updates []) as K. cbn in K.
  repeat split.
  - exact K.
  - rewrite K. apply firstOccurrencesFrom_NoDup.
  - pose proof (items_grouped updates [] id) as I. cbn in I.
    rewrite <- I. unfold ownItems.
    rewrite (getOwn_In _ id items); [reflexivity| |exact H].
    rewrite K. apply firstOccurrencesFrom_NoDup.
  - apply (in_map fst) in H. rewrite K in H. cbn in H.
    now apply firstOccurrencesFrom_In in H.
Qed.

End GroupingFacts.

(** ** The report: claims *)

Section ReportClaims.
Context {World : Type} {host : Host} {runtime : IAgentRuntime World}.

(** The path without updates. *)
Lemma generateTeamReport_empty
      (standupType : string) (roomId_ : option string) (f : Frame World)
      (memories : list Memory) (w1 : World) :
  getMemories (world f) = (Returned memories, w1) ->
  filteredUpdates standupType memories = [] ->
  fst (generateTeamReport standupType roomId_ f)
  = Returned (heading standupType ++ noUpdatesMessage standupType).
Proof.
  intros Hstore Hnone.
  unfold generateTeamReport, try_catch.
  unfold bind at 1, log at 1, emit at 1.
  unfold bind at 1, log at 1, emit at 1.
  unfold bind at 1, external at 1. cbn [world report trace].
  rewrite Hstore.
  unfold bind at 1, log at 1, emit at 1.
  unfold bind at 1, log at 1, emit at 1.
  unfold bind at 1, set_report at 1.
  unfold selectUpdates. rewrite Hnone, Array_sort_nil. cbn [List.length Nat.eqb].
  reflexivity.
Qed.

(** C1.  When the store answers and no stored record passes the filter
    chain, the report is exactly the heading line for the requested
    category, an empty line, and the sentence that no updates were found
    for that category, quoted, in this room: no member section is
    produced. *)
Theorem no_matching_updates_message :
  forall (standupType : string) (roomId_ : option string) (w w' : World)
         (memories : list Memory),
    getMemories w = (Returned memories, w') ->
    filteredUpdates standupType memories = [] ->
    fst (generateTeamReport standupType roomId_ (start w))
    = Returned ("📊 **Team Progress Report - " ++ standupType ++ " Standups**"
                ++ nl ++ nl
                ++ "No updates found for " ++ dq ++ standupType ++ dq
                ++ " standups in this room." ++ nl).
Proof.
  intros standupType roomId_ w w' memories Hstore Hnone.
  rewrite (generateTeamReport_empty standupType roomId_ (start w) memories w'
             Hstore Hnone).
  unfold heading, noUpdatesMessage. now rewrite !append_assoc.
Qed.

(** The report in full: when the store answers with at least one update
    and no member id names a member of [Object.prototype], the report is
    the heading followed by the members' sections.  Neither timestamps that
    do not parse, nor answers that do not decode, nor a failing text
    generation stand in the way. *)
Lemma generateTeamReport_sections
      (standupType : string) (roomId_ : option string) (f : Frame World)
      (memories : list Memory) (w1 : World) :
  getMemories (world f) = (Returned memories, w1) ->
  selectUpdates standupType memories <> [] ->
  (forall u, In u (selectUpdates standupType memories) ->
             inherited (teamMemberId u) = false) ->
  fst (generateTeamReport standupType roomId_ f)
  = Returned (heading standupType
              ++ sectionsText (sectionsOf (selectUpdates standupType memories)) w1).
Proof.
  intros Hstore Hsome Hkeys.
  unfold generateTeamReport, try_catch.
  unfold bind at 1, log at 1, emit at 1.
  unfold bind at 1, log at 1, emit at 1.
  unfold bind at 1, external at 1. cbn [world report trace].
  rewrite Hstore.
  unfold bind at 1, log at 1, emit at 1.
  unfold bind at 1, log at 1, emit at 1.
  unfold bind at 1, set_report at 1. cbn [world report trace].
  destruct (selectUpdates standupType memories) as [|u updates] eqn:Eu; [easy|].
  cbn [List.length Nat.eqb]. unfold bind at 1.
  match goal with |- context [groupByMember ?l ?t ?g] =>
    destruct (groupByMember_run l t g Hkeys) as (f1 & E1 & W1 & R1) end.
  rewrite E1. cbn [world report] in W1, R1.
  unfold bind at 1.
  match goal with |- context [for_each ?l memberSection f1] =>
    destruct (sections_run l f1) as (f2 & E2 & R2) end.
  rewrite E2. cbn. now rewrite R2, R1, W1.
Qed.

(** C10.  Whenever [generateTeamReport] returns a string, the string begins
    with the heading line, which names the requested category, and the
    empty line after it: on the path without updates as on every path with
    member sections and fallbacks. *)
Theorem report_begins_with_heading :
  forall (standupType : string) (roomId_ : option string) (f f' : Frame World)
         (result : string),
    generateTeamReport standupType roomId_ f = (Returned result, f') ->
    startsWith
      ("📊 **Team Progress Report - " ++ standupType ++ " Standups**" ++ nl ++ nl)
      result = true.
Proof.
  intros standupType roomId_ f f' result.
  unfold generateTeamReport, try_catch.
  unfold bind at 1, log at 1, emit at 1.
  unfold bind at 1, log at 1, emit at 1.
  unfold bind at 1, external at 1. cbn [world report trace].
  destruct (getMemories (world f)) as [[memories|e] w1]; [|discriminate].
  unfold bind at 1, log at 1, emit at 1.
  unfold bind at 1, log at 1, emit at 1.
  unfold bind at 1, set_report at 1. cbn [world report trace].
  destruct (after_heading standupType (selectUpdates standupType memories))
    as [Hy Hg]. cbv zeta in Hy, Hg.
  match goal with |- context [(if _ then _ else _) ?g] => set (f0 := g) end.
  match goal with |- context [?m f0] =>
    destruct (m f0) as [[s|e] f1] eqn:E end; [|discriminate].
  intros [= <- <-].
  rewrite (Hy _ _ _ E). destruct (Hg _ _ _ E) as [txt ->].
  subst f0. cbn [report]. apply (startsWith_append (heading standupType)).
Qed.

(** Whether timestamps parse or not, the report is produced. *)
Lemma generateTeamReport_returns
      (standupType : string) (roomId_ : option string) (f : Frame World)
      (memories : list Memory) (w1 : World) :
  getMemories (world f) = (Returned memories, w1) ->
  (forall u, In u (filteredUpdates standupType memories) ->
             inherited (teamMemberId u) = false) ->
  isReturned (fst (generateTeamReport standupType roomId_ f)) = true.
Proof.
  intros Hstore Hkeys.
  destruct (filteredUpdates standupType memories) as [|u0 rest] eqn:E.
  - now rewrite (generateTeamReport_empty _ _ _ _ _ Hstore E).
  - rewrite (generateTeamReport_sections _ _ _ _ _ Hstore); [reflexivity| |].
    + unfold selectUpdates. rewrite E. intros Hnil.
      apply (Permutation_nil_cons (l:=rest) (x:=u0)).
      rewrite <- Hnil. apply Permutation_sym, Array_sort_permutes.
    + intros u Hu. apply Hkeys. rewrite <- E.
      apply (Permutation_in _ (Permutation_sym (Array_sort_permutes byTimestampDesc _))).
      exact Hu.
Qed.

(** C4 (as the code has it).  The sort keeps every filtered update and
    orders them newest first when every timestamp parses.  A timestamp that
    does not parse raises no error: the comparator answers [NaN] for its
    update against any other, the time of the update is written
    "Invalid Date" where the report shows it, and, whether the timestamps
    parse or not, the report is returned whenever the store answers and no
    member id names a member of [Object.prototype]. *)
Theorem sort_newest_first_no_parse_error :
  forall (standupType : string) (memories : list Memory),
    Permutation (filteredUpdates standupType memories)
                (selectUpdates standupType memories)
    /\ (Forall parses (filteredUpdates standupType memories) ->
        StronglySorted newerOrSame (selectUpdates standupType memories))
    /\ (forall u v : TeamMemberUpdate,
          ~ parses u ->
          byTimestampDesc u v = None
          /\ byTimestampDesc v u = None
          /\ localeTime u = "Invalid Date")
    /\ (forall (roomId_ : option string) (f : Frame World) (w1 : World),
          getMemories (world f) = (Returned memories, w1) ->
          (forall u, In u (filteredUpdates standupType memories) ->
                     inherited (teamMemberId u) = false) ->
          isReturned (fst (generateTeamReport standupType roomId_ f)) = true).
Proof.
  intros standupType memories. split; [|split; [|split]].
  - apply Array_sort_permutes.
  - apply sort_newest_first.
  - intros u v Hu. unfold parses, byTimestampDesc, localeTime in *.
    destruct (Date_getTime (timestamp u)); [now exfalso; apply Hu|].
    now destruct (Date_getTime (timestamp v)).
  - intros roomId_ f w1. apply generateTeamReport_returns.
Qed.

(** The sections of a completed grouping. *)
Lemma grouping_completed (updates : list TeamMemberUpdate) (table : MemberTable)
      (f f' : Frame World) :
  groupByMember updates [] f = (Returned table, f') ->
  table = fold_left addUpdate updates [].
Proof.
  intros Hrun.
  assert (Hi : forall u, In u updates -> inherited (teamMemberId u) = false).
  { apply (groupByMember_returned updates [] table f f'); [easy | exact Hrun]. }
  destruct (groupByMember_run updates [] f Hi) as (g & E & _). congruence.
Qed.

Lemma sections_content (updates : list TeamMemberUpdate) :
  let sections := sectionsOf updates in
  NoDup (map fst sections)
  /\ (forall id items, In (id, items) sections ->
        items = updatesOf id updates /\ In id (memberIds updates))
  /\ (forall u, In u updates ->
        In (teamMemberId u, updatesOf (teamMemberId u) updates) sections).
Proof.
  cbv zeta. unfold sectionsOf.
  destruct (grouped_sections updates) as (K & Hnd & Hin). cbv zeta in K, Hnd, Hin.
  pose proof (Object_entries_perm (fold_left addUpdate updates [])) as P.
  repeat split.
  - apply (Permutation_NoDup (Permutation_map fst P)), Hnd.
  - apply (Hin id items), (Permutation_in _ (Permutation_sym P)), H.
  - apply (Hin id items), (Permutation_in _ (Permutation_sym P)), H.
  - intros u Hu. apply (Permutation_in _ P).
    assert (Hk : In (teamMemberId u) (map fst (fold_left addUpdate updates []))).
    { rewrite K. apply firstOccurrencesFrom_In. split; [|easy].
      now apply in_map. }
    apply in_map_iff in Hk as ([k items] & Ek & Hk). cbn in Ek. subst k.
    now rewrite <- (proj1 (Hin _ _ Hk)).
Qed.

Lemma section_items (updates : list TeamMemberUpdate)
      (table : MemberTable) (f f' : Frame World) :
  groupByMember updates [] f = (Returned table, f') ->
  forall id items, In (id, items) (Object_entries table) ->
                   items = updatesOf id updates.
Proof.
  intros Hrun id items Hin. rewrite (grouping_completed _ _ _ _ Hrun) in Hin.
  destruct (sections_content updates) as (_ & H2 & _). now apply (H2 id items).
Qed.


(** C6 (as the code has it).  In every section of a completed grouping of
    the sorted updates, the updates shown as recent are at most three; they
    are ordered newest first when every timestamp parses; and they are what
    a section with a generated analysis displays, in that order. *)
Theorem recent_updates_of_section :
  forall (standupType : string) (memories : list Memory) (table : MemberTable)
         (f f' : Frame World) (id : string) (items : list TeamMemberUpdate),
    groupByMember (selectUpdates standupType memories) [] f = (Returned table, f') ->
    In (id, items) (Object_entries table) ->
    (List.length (recentUpdates items) <= 3)%nat
    /\ (Forall parses (filteredUpdates standupType memories) ->
        StronglySorted newerOrSame (recentUpdates items))
    /\ (forall (g : Frame World) (analysis : string) (w' : World),
          useModel (analysisPrompt (map processed items)) (world g)
          = (Returned analysis, w') ->
          exists g',
            memberSection (id, items) g = (Returned tt, g')
            /\ report g'
               = report g
                 ++ sectionHeader id items
                 ++ ("📋 **Productivity Analysis**:" ++ nl ++ analysis ++ nl ++ nl)
                 ++ ("📅 **Recent Updates**:" ++ nl)
                 ++ joinText (map recentEntry (recentUpdates items))
                 ++ separator).
Proof.
  intros standupType memories table f f' id items Hrun Hin. repeat split.
  - apply firstn_le_length.
  - intros Hparse. apply StronglySorted_firstn.
    rewrite (section_items _ _ _ _ Hrun _ _ Hin). apply StronglySorted_filter.
    now apply sort_newest_first.
  - intros g analysis w' Hmodel.
    destruct (memberSection_run id items g _ _ Hmodel) as (g' & E & _ & Rg).
    exists g'. split; [exact E|]. rewrite Rg. unfold sectionText.
    now rewrite !append_assoc.
Qed.



End ReportClaims.

(** C1 on the sample store: only chat messages are stored. *)
Lemma no_matching_updates_message_sample :
  Sample.reportOf "retro" (Sample.worldWith Sample.chatOnly)
  = Returned (Sample.lines
      [ "📊 **Team Progress Report - retro Standups**";
        "";
        "No updates found for " ++ dq ++ "retro" ++ dq ++ " standups in this room." ]).
Proof.
  apply (no_matching_updates_message (host:=Sample.host) (runtime:=Sample.runtime)
           "retro" None (Sample.worldWith Sample.chatOnly)
           (Sample.worldWith Sample.chatOnly) Sample.chatOnly);
    reflexivity.
Defined.

(** ** The report on the sample store *)

Section SampleReports.
Import Sample.

(** C2, counterexample.  A stored memory that carries the tag
    ['team-member-update'] and no update passes the first filter and is
    dropped by the filter chain: the report finds no update. *)
Lemma tagged_memory_without_update_is_dropped :
  typeTag (chat "team-member-update") = Some "team-member-update"
  /\ memoryFilter "sprint" (chat "team-member-update") = true
  /\ filteredUpdates "sprint" [chat "team-member-update"] = []
  /\ selectUpdates "sprint" [chat "team-member-update"] = []
  /\ reportOf "sprint" (worldWith [chat "team-member-update"])
     = Returned (lines
         [ "📊 **Team Progress Report - sprint Standups**";
           "";
           "No updates found for " ++ dq ++ "sprint" ++ dq
           ++ " standups in this room." ]).
Proof. repeat split; reflexivity. Qed.

(** C2 on the sample store: of a chat message, a tagged memory without
    update and three tagged updates, the three updates are kept, in the
    order of the store, whatever their category and the category asked
    for. *)
Lemma filter_chain_keeps_tagged_payloads_sample :
  filteredUpdates "sprint"
    (chat "message" :: chat "team-member-update" :: team)
  = [alice1; bob2; alice3]
  /\ filteredUpdates "retro"
       (map (withCheckInType "standup")
            (chat "message" :: chat "team-member-update" :: team))
     = map (setCheckInType "standup") [alice1; bob2; alice3].
Proof.
  pose proof (filter_chain_keeps_tagged_payloads
                (host:=host) "sprint"
                (chat "message" :: chat "team-member-update" :: team))
    as (Hkept & _ & _ & Hcat).
  split; [rewrite Hkept; reflexivity|].
  rewrite (Hcat "retro" "standup"), Hkept. reflexivity.
Defined.

(** C4, counterexample.  A stored update whose timestamp is no date is
    reported, its time shown as "Invalid Date": no parse error is raised. *)
Lemma unparseable_timestamp_is_reported :
  Date_getTime (timestamp undated) = None
  /\ reportOf "sprint" (worldWith [stored_update undated])
     = Returned (lines
         [ "📊 **Team Progress Report - sprint Standups**";
           "";
           "👤 **Carol** (ID: carol)";
           "";
           "📋 **Productivity Analysis**:";
           "On track.";
           "";
           "📅 **Recent Updates**:";
           "";
           "🕒 Invalid Date";
           "▫️ **Progress**: Shipped login";
           "▫️ **Blockers**: None";
           "";
           "-------------------";
           "" ]).
Proof. split; reflexivity. Qed.

Lemma team_updates_parse : Forall parses (filteredUpdates "sprint" team).
Proof. repeat constructor; discriminate. Qed.

Lemma undated_does_not_parse : ~ parses undated.
Proof. intros H. now apply H. Qed.

(** C4 on the sample store: three dated updates come out newest first; the
    undated update compares as [NaN], shows as "Invalid Date", and its
    report is returned. *)
Lemma sort_newest_first_sample :
  map timestamp (selectUpdates "sprint" team) = [day3; day2; day1]
  /\ StronglySorted newerOrSame (selectUpdates "sprint" team)
  /\ (byTimestampDesc undated alice1 = None
      /\ byTimestampDesc alice1 undated = None
      /\ localeTime undated = "Invalid Date")
  /\ isReturned (reportOf "sprint" (worldWith [stored_update undated])) = true.
Proof.
  split; [reflexivity|]. split; [|split].
  - apply (proj1 (proj2 (sort_newest_first_no_parse_error
                           (World:=World) "sprint" team))).
    exact team_updates_parse.
  - apply (proj1 (proj2 (proj2 (sort_newest_first_no_parse_error
                                  (World:=World) "sprint" team)))).
    exact undated_does_not_parse.
  - apply (proj2 (proj2 (proj2 (sort_newest_first_no_parse_error
                                  (World:=World) "sprint" [stored_update undated])))
             None (start (worldWith [stored_update undated]))
             (worldWith [stored_update undated])).
    + reflexivity.
    + intros u [<-|[]]. reflexivity.
Defined.



(** A member id that names a member of [Object.prototype] reads truthy in
    the empty table and has no [push]: the grouping throws, and with it the
    report generator. *)
Example inherited_member_id_throws :
  reportOf "sprint" (worldWith [stored_update ctor])
  = Thrown (TypeError "updatesByMember[update.teamMemberId].push is not a function").
Proof. reflexivity. Qed.

(** C6, counterexample.  One member, three updates, the middle one without
    a date: the comparator answers [NaN] for both adjacent pairs, the sort
    leaves the stored order, and the update of May 1st is shown before the
    update of May 3rd. *)
Lemma undated_update_breaks_recent_order :
  sectionsOf (selectUpdates "sprint" danas) = [("dana", [dana1; danaX; dana3])]
  /\ recentUpdates [dana1; danaX; dana3] = [dana1; danaX; dana3]
  /\ Date_getTime (timestamp dana1) = Some 1714554000000%Z
  /\ Date_getTime (timestamp dana3) = Some 1714726800000%Z
  /\ reportOf "sprint" (worldWith danas)
     = Returned (lines
         [ "📊 **Team Progress Report - sprint Standups**";
           "";
           "👤 **Dana** (ID: dana)";
           "";
           "📋 **Productivity Analysis**:";
           "On track.";
           "";
           "📅 **Recent Updates**:";
           "";
           "🕒 5/1/2024, 9:00:00 AM";
           "";
           "🕒 Invalid Date";
           "";
           "🕒 5/3/2024, 9:00:00 AM";
           "";
           "-------------------";
           "" ]).
Proof. repeat split; reflexivity. Qed.

(** C6 on the sample store: alice's section shows her two updates, newest
    first. *)
Lemma recent_updates_of_section_sample :
  (List.length (recentUpdates [alice3; alice1]) <= 3)%nat
  /\ StronglySorted newerOrSame (recentUpdates [alice3; alice1]).
Proof.
  assert (E : groupByMember (selectUpdates "sprint" team) [] (start (worldWith team))
              = (Returned teamTable,
                 snd (groupByMember (selectUpdates "sprint" team) []
                        (start (worldWith team)))))
    by (vm_compute; reflexivity).
  destruct (recent_updates_of_section
              "sprint" team _ _ _ "alice" [alice3; alice1] E (or_introl eq_refl))
    as (Hlen & Hsorted & _).
  split; [exact Hlen | exact (Hsorted team_updates_parse)].
Defined.



(** C10 on the sample store, the text generation failing and another
    category requested. *)
Lemma report_begins_with_heading_sample :
  exists result,
    reportOf "retro" (worldWithoutAnalyst team) = Returned result
    /\ startsWith
         ("📊 **Team Progress Report - " ++ "retro" ++ " Standups**" ++ nl ++ nl)
         result = true.
Proof.
  eexists. split; [vm_compute; reflexivity|].
  eapply (report_begins_with_heading "retro" None
            (start (worldWithoutAnalyst team))).
  vm_compute. reflexivity.
Defined.

End SampleReports.

(** ** The handler *)

Lemma deliveries_app (a b : list Event) :
  deliveries (a ++ b) = (deliveries a ++ deliveries b)%list.
Proof.
  induction a as [|[] a IH]; cbn; rewrite ?IH; reflexivity.
Qed.

Lemma deliveries_quiet (evs : list Event) :
  forallb notCallback evs = true -> deliveries evs = [].
Proof.
  induction evs as [|[] evs IH]; cbn; try easy.
Qed.

Ltac step_log :=
  unfold bind at 1, log at 1, emit at 1; cbn [world report trace].

Ltac step_invoke callback :=
  unfold bind at 1, invoke at 1, external at 1; cbn [world report trace];
  let o := fresh "o" in
  let w := fresh "w" in
  let E := fresh "E" in
  match goal with
  | |- context [callback ?c ?w0] => destruct (callback c w0) as [o w] eqn:E
  end.



Section HandlerClaims.
Context {World : Type} {host : Host} {runtime : IAgentRuntime World}.



End HandlerClaims.

(** ** The handler on the sample store *)

Section SampleHandler.
Import Sample.


(** A delivery that throws is followed by a second invocation, from the
    outer [catch]: the report, then the apology. *)
Example failed_delivery_is_followed_by_apology :
  List.length
    (deliveries (trace (snd (handler request (Some noState) (Some deliveryFails)
                                    (start (worldWith chatOnly))))))
  = 2.
Proof. vm_compute. reflexivity. Qed.



End SampleHandler.

(** * Further properties of the report generator *)

Lemma prompts_app (a b : list Event) :
  prompts (a ++ b) = (prompts a ++ prompts b)%list.
Proof.
  induction a as [|[] a IH]; cbn; rewrite ?IH; reflexivity.
Qed.

Lemma fetches_app (a b : list Event) :
  fetches (a ++ b) = fetches a + fetches b.
Proof.
  induction a as [|[] a IH]; cbn; rewrite ?IH; reflexivity.
Qed.

Lemma logs_only (evs : list Event) :
  forallb isLog evs = true ->
  prompts evs = [] /\ fetches evs = 0 /\ deliveries evs = [].
Proof.
  induction evs as [|[] evs IH]; cbn; try easy.
Qed.

Ltac only_logs :=
  repeat first
    [ progress preserve_by uconstr:(@traceGrows_refl _ _) uconstr:(@traceGrows_trans _ _)
    | apply traces_emit; reflexivity
    | apply traces_append_report
    | apply traces_set_report ].

Section GeneratorTrace.
Context {World : Type} {host : Host} {runtime : IAgentRuntime World}.

Lemma logs_displayAnswers (u : TeamMemberUpdate) :
  preserves (@traceGrows World isLog) (displayAnswers u).
Proof. unfold displayAnswers, displayEntry, log. only_logs. Qed.

Lemma logs_displayRecent (l : list TeamMemberUpdate) :
  preserves (@traceGrows World isLog) (for_each l displayRecent).
Proof. unfold displayRecent. only_logs; apply logs_displayAnswers. Qed.

Lemma logs_displayRaw (l : list TeamMemberUpdate) :
  preserves (@traceGrows World isLog) (for_each l displayRaw).
Proof. unfold displayRaw. only_logs; apply logs_displayAnswers. Qed.

Lemma logs_processUpdates (l : list TeamMemberUpdate) :
  preserves (@traceGrows World isLog) (map_M processUpdate l).
Proof. unfold processUpdate, log. only_logs. Qed.

Lemma logs_groupByMember (updates : list TeamMemberUpdate) (table : MemberTable) :
  preserves (@traceGrows World isLog) (groupByMember updates table).
Proof.
  revert table. induction updates as [|u updates IH]; intros table;
    cbn [groupByMember].
  - only_logs.
  - apply (preserves_bind _ (@traceGrows_trans World isLog));
      [|intros t; apply IH].
    unfold groupUpdate, log.
    apply (preserves_bind _ (@traceGrows_trans World isLog));
      [apply traces_emit; reflexivity|].
    intros _. cbv zeta. destruct (Get _ (teamMemberId u)); only_logs.
Qed.

(** One section: one request to the text generation, carrying the payload
    of that member's updates; the store is not asked. *)
Lemma memberSection_trace (entry : string * list TeamMemberUpdate) (f : Frame World) :
  exists f' evs,
    memberSection entry f = (Returned tt, f')
    /\ trace f' = (trace f ++ evs)%list
    /\ prompts evs = [sectionPrompt entry]
    /\ fetches evs = 0.
Proof.
  destruct entry as [id memberUpdates]. unfold sectionPrompt, memberSection.
  cbn [fst snd].
  unfold bind at 1, log at 1, emit at 1.
  unfold bind at 1, append_report at 1. cbn [world report trace].
  unfold bind at 1.
  match goal with |- context [map_M processUpdate memberUpdates ?g] =>
    destruct (processUpdates_run memberUpdates g) as (f1 & E1 & W1 & R1);
    destruct (logs_processUpdates memberUpdates g _ _ E1) as (ev1 & T1 & L1)
  end.
  rewrite E1. cbn [world report trace] in W1, R1, T1.
  destruct (logs_only _ L1) as (P1 & F1 & _).
  unfold bind at 1, log at 1, emit at 1.
  unfold bind at 1, try_catch at 1, bind at 1, external at 1.
  cbn [world report trace].
  destruct (useModel (analysisPrompt (map processed memberUpdates)) (world f1))
    as [[a|err] w1].
  - unfold bind at 1, append_report at 1. cbn [world report trace].
    unfold bind at 1, append_report at 1. cbn [world report trace].
    match goal with |- context [for_each ?l displayRecent ?g] =>
      destruct (renders_for_each displayRecent recentEntry l
                  displayRecent_renders g) as (f2 & E2 & _ & _);
      destruct (logs_displayRecent l g _ _ E2) as (ev2 & T2 & L2)
    end.
    rewrite E2. cbn [trace] in T2. destruct (logs_only _ L2) as (P2 & F2 & _).
    do 2 eexists. split; [reflexivity|]. cbn [trace].
    rewrite T2, T1, <- !app_assoc. split; [reflexivity|].
    rewrite !prompts_app, !fetches_app, P1, P2, F1, F2. now cbn.
  - unfold bind at 1, log at 1, emit at 1.
    unfold bind at 1, append_report at 1. cbn [world report trace].
    match goal with |- context [for_each ?l displayRaw ?g] =>
      destruct (renders_for_each displayRaw rawEntry l
                  displayRaw_renders g) as (f2 & E2 & _ & _);
      destruct (logs_displayRaw l g _ _ E2) as (ev2 & T2 & L2)
    end.
    rewrite E2. cbn [trace] in T2. destruct (logs_only _ L2) as (P2 & F2 & _).
    do 2 eexists. split; [reflexivity|]. cbn [trace].
    rewrite T2, T1, <- !app_assoc. split; [reflexivity|].
    rewrite !prompts_app, !fetches_app, P1, P2, F1, F2. now cbn.
Qed.

Lemma sections_trace (entries : list (string * list TeamMemberUpdate)) (f : Frame World) :
  exists f' evs,
    for_each entries memberSection f = (Returned tt, f')
    /\ trace f' = (trace f ++ evs)%list
    /\ prompts evs = map sectionPrompt entries
    /\ fetches evs = 0.
Proof.
  revert f. induction entries as [|entry entries IH]; intros f.
  - exists f, []. cbn. now rewrite app_nil_r.
  - cbn [for_each map]. unfold bind at 1.
    destruct (memberSection_trace entry f) as (g & ev1 & Eg & Tg & Pg & Fg).
    rewrite Eg. destruct (IH g) as (h & ev2 & Eh & Th & Ph & Fh).
    exists h, (ev1 ++ ev2)%list. split; [exact Eh|].
    rewrite Th, Tg, app_assoc, prompts_app, fetches_app, Pg, Ph, Fg, Fh.
    now cbn.
Qed.

End GeneratorTrace.

Section GeneratorExtras.
Context {World : Type} {host : Host} {runtime : IAgentRuntime World}.

Lemma quiet_memberSection_loop (entries : list (string * list TeamMemberUpdate)) :
  preserves (@traceGrows World notCallback) (for_each entries memberSection).
Proof.
  apply (preserves_for_each _ (@traceGrows_refl _ _) (@traceGrows_trans _ _)).
  intros entry. apply quiet_memberSection.
Qed.

Lemma selectUpdates_In (standupType : string) (memories : list Memory)
      (u : TeamMemberUpdate) :
  In u (selectUpdates standupType memories)
  <-> In u (filteredUpdates standupType memories).
Proof.
  unfold selectUpdates. split; intros H.
  - now apply (Permutation_in _ (Permutation_sym (Array_sort_permutes byTimestampDesc _))).
  - now apply (Permutation_in _ (Array_sort_permutes byTimestampDesc _)).
Qed.

(** The whole run of the generator when the store answers and the grouping
    can complete. *)
Lemma generateTeamReport_run
      (standupType : string) (roomId_ : option string) (f : Frame World)
      (memories : list Memory) (w1 : World) :
  getMemories (world f) = (Returned memories, w1) ->
  (forall u, In u (filteredUpdates standupType memories) ->
             inherited (teamMemberId u) = false) ->
  exists f' evs,
    generateTeamReport standupType roomId_ f
    = (Returned (reportText standupType memories w1), f')
    /\ trace f' = (trace f ++ evs)%list
    /\ prompts evs = map sectionPrompt (sectionsOf (selectUpdates standupType memories))
    /\ fetches evs = 1
    /\ deliveries evs = [].
Proof.
  intros Hstore Hkeys.
  assert (Hkeys' : forall u, In u (selectUpdates standupType memories) ->
                             inherited (teamMemberId u) = false).
  { intros u Hu. apply Hkeys. now apply selectUpdates_In. }
  unfold generateTeamReport, try_catch, reportText.
  unfold bind at 1, log at 1, emit at 1.
  unfold bind at 1, log at 1, emit at 1.
  unfold bind at 1, external at 1. cbn [world report trace].
  rewrite Hstore.
  unfold bind at 1, log at 1, emit at 1.
  unfold bind at 1, log at 1, emit at 1.
  unfold bind at 1, set_report at 1. cbn [world report trace].
  destruct (selectUpdates standupType memories) as [|u updates] eqn:Eu.
  - cbn [List.length Nat.eqb].
    do 2 eexists. split; [reflexivity|]. cbn [trace].
    rewrite <- !app_assoc. split; [reflexivity|]. now cbn.
  - cbn [List.length Nat.eqb]. unfold bind at 1.
    match goal with |- context [groupByMember ?l ?t ?g] =>
      destruct (groupByMember_run l t g Hkeys') as (f1 & E1 & W1 & R1);
      destruct (logs_groupByMember l t g _ _ E1) as (ev1 & T1 & L1)
    end.
    rewrite E1. cbn [world report trace] in W1, R1, T1.
    destruct (logs_only _ L1) as (P1 & F1 & D1).
    unfold bind at 1.
    match goal with |- context [for_each ?l memberSection f1] =>
      destruct (sections_run l f1) as (f2 & E2 & R2);
      destruct (sections_trace l f1) as (f2' & ev2 & E2' & T2 & P2 & F2);
      destruct (quiet_memberSection_loop l f1 _ _ E2) as (ev3 & T3 & Q3)
    end.
    rewrite E2 in E2'. injection E2' as <-.
    rewrite E2.
    unfold bind at 1, log at 1, emit at 1.
    unfold bind at 1, log at 1, emit at 1.
    do 2 eexists. split.
    + unfold get_report. cbn [report]. rewrite R2, R1, W1. reflexivity.
    + cbn [trace]. rewrite T2, T1, <- !app_assoc. split; [reflexivity|].
      rewrite T2 in T3. apply app_inv_head in T3. subst ev3.
      rewrite !prompts_app, !fetches_app, !deliveries_app, P1, F1, D1, P2, F2,
        (deliveries_quiet _ Q3).
      unfold sectionsOf. cbn. now rewrite app_nil_r.
Qed.

End GeneratorExtras.

(** ** The generator: what it returns, what it asks for, how it fails *)

Section GeneratorProperties.
Context {World : Type} {host : Host} {runtime : IAgentRuntime World}.

(** X1.  When the store answers and no member id names a member of
    [Object.prototype], the generator returns the heading followed by the
    no-updates sentence or by one section per member of the updates as the
    engine's sort arranged them, each section written from that member's
    updates and from the outcome of its own analysis request. *)
Theorem report_is_heading_and_sections :
  forall (standupType : string) (roomId_ : option string) (f : Frame World)
         (memories : list Memory) (w1 : World),
    getMemories (world f) = (Returned memories, w1) ->
    (forall u, In u (filteredUpdates standupType memories) ->
               inherited (teamMemberId u) = false) ->
    fst (generateTeamReport standupType roomId_ f)
    = Returned
        (("📊 **Team Progress Report - " ++ standupType ++ " Standups**" ++ nl ++ nl)
         ++ match selectUpdates standupType memories with
            | [] =>
                "No updates found for " ++ dq ++ standupType ++ dq
                ++ " standups in this room." ++ nl
            | _ :: _ =>
                sectionsText (sectionsOf (selectUpdates standupType memories)) w1
            end).
Proof.
  intros standupType roomId_ f memories w1 Hstore Hkeys.
  destruct (generateTeamReport_run standupType roomId_ f memories w1 Hstore Hkeys)
    as (f' & evs & E & _).
  now rewrite E.
Qed.

(** X2.  In such a run the store is asked exactly once, the text generation
    exactly once per section, in the order of the sections and with the
    payload of that section's updates, and no delivery is made. *)
Theorem one_fetch_and_one_request_per_section :
  forall (standupType : string) (roomId_ : option string) (f : Frame World)
         (memories : list Memory) (w1 : World),
    getMemories (world f) = (Returned memories, w1) ->
    (forall u, In u (filteredUpdates standupType memories) ->
               inherited (teamMemberId u) = false) ->
    exists evs,
      trace (snd (generateTeamReport standupType roomId_ f)) = (trace f ++ evs)%list
      /\ fetches evs = 1
      /\ prompts evs
         = map (fun entry => analysisPrompt (map processed (snd entry)))
               (sectionsOf (selectUpdates standupType memories))
      /\ deliveries evs = [].
Proof.
  intros standupType roomId_ f memories w1 Hstore Hkeys.
  destruct (generateTeamReport_run standupType roomId_ f memories w1 Hstore Hkeys)
    as (f' & evs & E & T & P & F & D).
  exists evs. rewrite E. cbn [snd]. auto.
Qed.

(** The run of the generator when the store fails. *)
Lemma generateTeamReport_store_failure
      (standupType : string) (roomId_ : option string) (f : Frame World)
      (e : exn) (w1 : World) :
  getMemories (world f) = (Thrown e, w1) ->
  generateTeamReport standupType roomId_ f
  = (Thrown e,
     {| world := w1;
        report := report f;
        trace := (trace f
                  ++ [ EvLog Info "=== GENERATE TEAM REPORT START ===";
                       EvLog Info ("Generating report for standup type: " ++ standupType);
                       EvGetMemories;
                       EvLog Error "Error generating team report:" ])%list |}).
Proof.
  intros Hstore. unfold generateTeamReport, try_catch.
  unfold bind at 1, log at 1, emit at 1.
  unfold bind at 1, log at 1, emit at 1.
  unfold bind at 1, external at 1. cbn [world report trace].
  rewrite Hstore. unfold bind, log, emit, throw. cbn [world report trace].
  now rewrite <- !app_assoc.
Qed.

(** X3.  A failure of the store is rethrown unchanged: the generator throws
    the very error the store threw, after logging it, without having
    written a report or asked the text generation. *)
Theorem store_failure_is_rethrown :
  forall (standupType : string) (roomId_ : option string) (f : Frame World)
         (e : exn) (w1 : World),
    getMemories (world f) = (Thrown e, w1) ->
    exists evs,
      generateTeamReport standupType roomId_ f
      = (Thrown e,
         {| world := w1; report := report f; trace := (trace f ++ evs)%list |})
      /\ prompts evs = []
      /\ last evs EvGetMemories = EvLog Error "Error generating team report:".
Proof.
  intros standupType roomId_ f e w1 Hstore.
  eexists. split; [now apply generateTeamReport_store_failure|].
  split; reflexivity.
Qed.

(** The grouping loop throws nothing but the [TypeError] of a missing
    [push], and leaves the world and the report as they are. *)
Lemma groupByMember_thrown (updates : list TeamMemberUpdate) (table : MemberTable)
      (f f' : Frame World) (e : exn) :
  groupByMember updates table f = (Thrown e, f') ->
  (exists message, e = TypeError message)
  /\ world f' = world f /\ report f' = report f.
Proof.
  revert table f. induction updates as [|u updates IH]; intros table f;
    cbn [groupByMember]; [discriminate|].
  unfold bind at 1, groupUpdate at 1.
  unfold bind at 1, log at 1, emit at 1. cbv zeta.
  destruct (Get _ (teamMemberId u)) as [|items|]; unfold ret, throw.
  - intros [= <- <-]. eauto.
  - intros H. apply IH in H. cbn [world report] in H. exact H.
  - intros [= <- <-]. eauto.
Qed.

(** X4.  When some stored update that passes the filter has a member id
    that names a member of [Object.prototype] (such as "constructor"), the
    generator throws a [TypeError] instead of returning a report, before
    any request to the text generation. *)
Theorem inherited_member_id_is_fatal :
  forall (standupType : string) (roomId_ : option string) (f : Frame World)
         (memories : list Memory) (w1 : World) (u : TeamMemberUpdate),
    getMemories (world f) = (Returned memories, w1) ->
    In u (filteredUpdates standupType memories) ->
    inherited (teamMemberId u) = true ->
    exists message f' evs,
      generateTeamReport standupType roomId_ f = (Thrown (TypeError message), f')
      /\ world f' = w1
      /\ trace f' = (trace f ++ evs)%list
      /\ prompts evs = [].
Proof.
  intros standupType roomId_ f memories w1 u Hstore Hu Hi.
  apply selectUpdates_In in Hu.
  unfold generateTeamReport, try_catch.
  unfold bind at 1, log at 1, emit at 1.
  unfold bind at 1, log at 1, emit at 1.
  unfold bind at 1, external at 1. cbn [world report trace].
  rewrite Hstore.
  unfold bind at 1, log at 1, emit at 1.
  unfold bind at 1, log at 1, emit at 1.
  unfold bind at 1, set_report at 1. cbn [world report trace].
  destruct (selectUpdates standupType memories) as [|u0 updates] eqn:Eu; [easy|].
  cbn [List.length Nat.eqb]. unfold bind at 1.
  match goal with |- context [groupByMember ?l ?t ?g] =>
    destruct (groupByMember l t g) as [[table|e] f1] eqn:E
  end.
  - assert (Hno : inherited (teamMemberId u) = false).
    { refine (groupByMember_returned _ _ _ _ _ _ E u Hu). intros k []. }
    congruence.
  - destruct (groupByMember_thrown _ _ _ _ _ E) as ((message & ->) & W & _).
    destruct (logs_groupByMember _ _ _ _ _ E) as (ev1 & T1 & L1).
    cbn [world trace] in W, T1. destruct (logs_only _ L1) as (P1 & _ & _).
    do 3 eexists. split; [reflexivity|]. cbn [world trace].
    split; [exact W|]. rewrite T1, <- !app_assoc. split; [reflexivity|].
    rewrite !prompts_app, P1. reflexivity.
Qed.

(** X5.  The updates of the report are exactly the payloads of the stored
    memories that carry the type tag and a payload: a tagged memory without
    an update contributes nothing, and neither does an update under another
    tag. *)
Theorem reported_updates :
  forall (standupType : string) (memories : list Memory) (u : TeamMemberUpdate),
    In u (selectUpdates standupType memories)
    <-> exists m, In m memories
                  /\ typeTag m = Some "team-member-update"
                  /\ getUpdate m = Some u.
Proof.
  intros standupType memories u.
  rewrite selectUpdates_In. apply filteredUpdates_In.
Qed.

Lemma insertSorted_stable (t : option Z) (x : TeamMemberUpdate)
      (l : list TeamMemberUpdate) :
  filter (sameTime t) (insertSorted byTimestampDesc x l)
  = filter (sameTime t) (x :: l).
Proof.
  induction l as [|y l IH]; [reflexivity|].
  cbn [insertSorted]. destruct (staysBefore byTimestampDesc x y) eqn:E;
    [reflexivity|].
  cbn [filter] in *. rewrite IH.
  destruct (sameTime t x) eqn:Ex, (sameTime t y) eqn:Ey; try reflexivity.
  exfalso. unfold staysBefore, byTimestampDesc, sameTime, timeOf in *.
  destruct t as [a|], (Date_getTime (timestamp x)) as [tx|],
    (Date_getTime (timestamp y)) as [ty|]; try discriminate.
  apply Z.eqb_eq in Ex, Ey. subst. rewrite Z.sub_diag in E. discriminate.
Qed.

Lemma stableSort_unordered (l : list TeamMemberUpdate) :
  Forall (fun u => ~ parses u) l -> stableSort byTimestampDesc l = l.
Proof.
  induction 1 as [|x l Hx Hl IH]; [reflexivity|].
  cbn [stableSort]. rewrite IH. destruct l as [|y l']; [reflexivity|].
  cbn [insertSorted]. unfold staysBefore, byTimestampDesc, parses in *.
  destruct (Date_getTime (timestamp x)); [now exfalso; apply Hx|].
  now destruct (Date_getTime (timestamp y)).
Qed.

Lemma byTimestampDesc_unranked (l : list TeamMemberUpdate) :
  Forall (fun u => ~ parses u) l -> rankedBy byTimestampDesc (fun _ => 0%Z) l.
Proof.
  intros H x y Hx Hy. rewrite Forall_forall in H. pose proof (H x Hx) as Px.
  unfold sortCompare, byTimestampDesc, parses in *.
  destruct (Date_getTime (timestamp x)); [now exfalso; apply Px|].
  now destruct (Date_getTime (timestamp y)).
Qed.

(** X6.  The sort is stable where the comparator is consistent.  When every
    timestamp parses, the updates of one and the same time keep the order in
    which the store returned them; when no timestamp parses, every
    comparison is [NaN] and the updates all keep their order. *)
Theorem equal_timestamps_keep_stored_order :
  forall (standupType : string) (memories : list Memory),
    (Forall parses (filteredUpdates standupType memories) ->
     forall t : option Z,
       filter (sameTime t) (selectUpdates standupType memories)
       = filter (sameTime t) (filteredUpdates standupType memories))
    /\ (Forall (fun u => ~ parses u) (filteredUpdates standupType memories) ->
        selectUpdates standupType memories = filteredUpdates standupType memories).
Proof.
  intros standupType memories. unfold selectUpdates. split.
  - intros Hparse t. rewrite (Array_sort_parsed _ Hparse). clear Hparse.
    induction (filteredUpdates standupType memories) as [|x l IH]; [reflexivity|].
    cbn [stableSort]. rewrite insertSorted_stable. cbn [filter]. now rewrite IH.
  - intros Hnone.
    rewrite (Array_sort_stable byTimestampDesc (fun _ => 0%Z) _
               (byTimestampDesc_unranked _ Hnone)).
    now apply stableSort_unordered.
Qed.

(** X7.  In a completed grouping no section is empty, every update of a
    section is its member's, and the name that heads the section is that of
    the section's first update ("Unknown" when it has none); when every
    timestamp parses, that first update is at least as recent as every
    other update of the member. *)
Theorem section_is_headed_by_newest_update :
  forall (standupType : string) (memories : list Memory) (table : MemberTable)
         (f f' : Frame World) (id : string) (items : list TeamMemberUpdate),
    groupByMember (selectUpdates standupType memories) [] f = (Returned table, f') ->
    In (id, items) (Object_entries table) ->
    exists first rest,
      items = first :: rest
      /\ Forall (fun u => teamMemberId u = id) items
      /\ sectionHeader id items
         = "👤 **" ++ orElse (teamMemberName first) "Unknown"
           ++ "** (ID: " ++ id ++ ")" ++ nl ++ nl
      /\ (Forall parses (filteredUpdates standupType memories) ->
          Forall (newerOrSame first) rest).
Proof.
  intros standupType memories table f f' id items Hrun Hin.
  pose proof (section_items _ _ _ _ Hrun _ _ Hin) as Hitems.
  rewrite (grouping_completed _ _ _ _ Hrun) in Hin.
  destruct (sections_content (selectUpdates standupType memories)) as (_ & H2 & _).
  destruct (H2 id items Hin) as [_ Hid].
  assert (Hmine : Forall (fun u => teamMemberId u = id) items).
  { rewrite Hitems. apply Forall_forall. intros u Hu.
    apply filter_In in Hu as [_ Hu]. now apply String.eqb_eq. }
  destruct items as [|first rest].
  - exfalso. apply in_map_iff in Hid as (u & Hu & Huin).
    assert (In u []) as [].
    rewrite Hitems. apply filter_In. split; [exact Huin|].
    now apply String.eqb_eq.
  - exists first, rest. repeat split; auto.
    intros Hparse.
    assert (Hsorted : StronglySorted newerOrSame (first :: rest)).
    { rewrite Hitems. apply StronglySorted_filter. now apply sort_newest_first. }
    now inversion Hsorted.
Qed.

Lemma entryLines_until (before after : list (string * JsonValue))
      (question : string) (value : JsonValue) :
  allConvert before = true ->
  isReturned (ToString value) = false ->
  allConvert (before ++ (question, value) :: after) = false
  /\ entryLines (before ++ (question, value) :: after) = entryLines before.
Proof.
  intros Hb Hv. induction before as [|e before IH]; cbn in *.
  - destruct (ToString value); [discriminate | auto].
  - destruct (ToString (snd e)); [|discriminate].
    destruct (IH Hb) as [-> ->]. auto.
Qed.

(** X8.  When the answers decode but one of them has no string conversion
    (an object with a field named toString), the lines of the answers before
    it stay in the report, the error line follows, the answers after it are
    not shown, and nothing is thrown. *)
Theorem display_stops_at_unconvertible_answer :
  forall (u : TeamMemberUpdate) (decoded : JsonValue)
         (before after : list (string * JsonValue))
         (question : string) (value : JsonValue) (f : Frame World),
    parseAnswers u = Returned decoded ->
    JSON_entries decoded = Returned (before ++ (question, value) :: after)%list ->
    allConvert before = true ->
    isReturned (ToString value) = false ->
    exists f',
      displayAnswers u f = (Returned tt, f')
      /\ report f'
         = report f ++ entryLines before
           ++ "▫️ Error parsing update details" ++ nl.
Proof.
  intros u decoded before after question value f Hparse Hentries Hb Hv.
  destruct (displayAnswers_renders u f) as (f' & E & _ & Rf).
  exists f'. split; [exact E|]. rewrite Rf. unfold answersText.
  rewrite Hparse, Hentries.
  destruct (entryLines_until before after question value Hb Hv) as [-> ->].
  reflexivity.
Qed.

(** X9.  An update without answers, or with the empty string for answers,
    is never handed to [JSON.parse]: its payload carries the empty object,
    and its display adds nothing to the report and logs nothing. *)
Theorem missing_answers_are_an_empty_object :
  forall (u : TeamMemberUpdate) (f : Frame World),
    truthy (answers u) = false ->
    processUpdate u f
    = (Returned (Decoded {| decodedTeamMemberId := teamMemberId u;
                            decodedTeamMemberName := teamMemberName u;
                            decodedServerName := serverName u;
                            decodedCheckInType := checkInType u;
                            decodedTimestamp := timestamp u;
                            decodedAnswers := JObject [] |}), f)
    /\ displayAnswers u f = (Returned tt, f).
Proof.
  intros u f Hfalsy.
  assert (Hparse : parseAnswers u = Returned (JObject [])).
  { unfold parseAnswers. destruct (answers u) as [[|c rest]|]; easy. }
  unfold processUpdate, displayAnswers, try_catch, bind, eval.
  rewrite Hparse. split; reflexivity.
Qed.

(** X10.  Answers that decode to [null] are kept as [null] in the payload
    of the analysis, without fallback to the raw update, while their
    display is the error line: [null] has no entries to enumerate. *)
Theorem null_answers_are_sent_but_not_shown :
  forall (u : TeamMemberUpdate) (c : ascii) (encoded : string) (f : Frame World),
    answers u = Some (String c encoded) ->
    JSON_parse (String c encoded) = Some JNull ->
    processUpdate u f
    = (Returned (Decoded {| decodedTeamMemberId := teamMemberId u;
                            decodedTeamMemberName := teamMemberName u;
                            decodedServerName := serverName u;
                            decodedCheckInType := checkInType u;
                            decodedTimestamp := timestamp u;
                            decodedAnswers := JNull |}), f)
    /\ displayAnswers u f
       = (Returned tt,
          {| world := world f;
             report := report f ++ "▫️ Error parsing update details" ++ nl;
             trace := (trace f
                       ++ [EvLog Error "Error parsing answers JSON for display:"])%list |}).
Proof.
  intros u c encoded f Hans Hnull.
  assert (Hparse : parseAnswers u = Returned JNull).
  { unfold parseAnswers. now rewrite Hans, Hnull. }
  unfold processUpdate, displayAnswers, try_catch, bind, eval.
  rewrite Hparse. split; reflexivity.
Qed.

End GeneratorProperties.

(** * Further properties of the handler *)

Ltac leaf :=
  do 3 eexists; split; [reflexivity|]; cbn [trace];
  try match goal with Ht : trace _ = _ |- _ => rewrite Ht end;
  rewrite <- ?app_assoc; cbn [app];
  split; [reflexivity|];
  repeat first
    [ progress cbn [deliveries app List.length]
    | rewrite deliveries_app
    | match goal with Hd : deliveries _ = [] |- _ => rewrite Hd end ];
  repeat split;
  first [ lia | discriminate | reflexivity
        | intros _; exists []; reflexivity
        | intros _; eexists [_]; reflexivity
        | intros _; eexists [_; _]; reflexivity ].

Section HandlerDeliveries.
Context {World : Type} {host : Host} {runtime : IAgentRuntime World}.

(** Every path of the handler, whatever the callback does. *)
Lemma handler_deliveries (message : Message) (state : option State)
      (callback : option (HandlerCallback World)) (f : Frame World) :
  exists o f' evs,
    handler message state callback f = (o, f')
    /\ trace f' = (trace f ++ evs)%list
    /\ (List.length (deliveries evs) <= 3)%nat
    /\ (o = Returned true -> List.length (deliveries evs) = 1)
    /\ (isReturned o = false ->
        exists before, deliveries evs = (before ++ [errorContent])%list).
Proof.
  unfold handler, try_catch at 1. step_log.
  destruct state as [state|]; [|leaf].
  destruct callback as [callback|]; [|step_log; leaf].
  destruct (messageText message) as [[|c rest]|];
    [step_log; leaf| |step_log; leaf].
  unfold bind at 1, classify at 1, try_catch at 1.
  unfold bind at 1, external at 1. cbn [world report trace].
  destruct (useModel (classificationPrompt (String c rest)) (world f))
    as [[parsedType|e] w1].
  - step_log.
    destruct (negb (truthy (stateStandupType state))
              && negb (truthy (Some parsedType)))%bool.
    + step_log. step_invoke callback. destruct o as [[]|e1]; [leaf|].
      step_log. step_invoke callback. destruct o as [[]|e2]; [leaf|].
      step_log. step_log. step_invoke callback. destruct o as [[]|e3]; leaf.
    + step_log.
      destruct (isValidType (normalize state parsedType)); cbn [negb].
      * unfold ret at 1. unfold bind at 1.
        match goal with |- context [generateTeamReport ?t ?r ?g] =>
          destruct (generateTeamReport t r g) as [[report_|e] f1] eqn:Eg;
          destruct (quiet_generateTeamReport t r g _ _ Eg) as (evs1 & Ht & Hq)
        end; cbn [trace] in Ht; pose proof (deliveries_quiet _ Hq) as Hd.
        -- step_invoke callback. destruct o as [[]|e1]; [step_log; leaf|].
           step_log. step_log. step_invoke callback.
           destruct o as [[]|e2]; leaf.
        -- step_log. step_log. step_invoke callback.
           destruct o as [[]|e2]; leaf.
      * step_invoke callback. destruct o as [[]|e1]; [leaf|].
        step_log. step_invoke callback. destruct o as [[]|e2]; [leaf|].
        step_log. step_log. step_invoke callback. destruct o as [[]|e3]; leaf.
  - step_log. step_invoke callback. destruct o as [[]|e1]; [leaf|].
    step_log. step_log. step_invoke callback. destruct o as [[]|e2]; leaf.
Qed.

End HandlerDeliveries.

Section HandlerProperties.
Context {World : Type} {host : Host} {runtime : IAgentRuntime World}.

(** X11.  [validate] accepts every message; yet when the state is absent,
    the callback is absent, or the message has no text, the handler returns
    [false] having only logged: it asks neither the text generation nor the
    store, delivers nothing and leaves the world as it was. *)
Theorem guards_return_false_without_any_call :
  forall (message : Message) (state : option State)
         (callback : option (HandlerCallback World)) (f : Frame World),
    state = None \/ callback = None \/ truthy (messageText message) = false ->
    fst (validate message f) = Returned true
    /\ exists evs,
         handler message state callback f
         = (Returned false,
            {| world := world f; report := report f;
               trace := (trace f ++ evs)%list |})
         /\ forallb isLog evs = true.
Proof.
  intros message state callback f Hguard. split; [reflexivity|].
  unfold handler, try_catch at 1. step_log.
  destruct state as [state|];
    [|eexists; split; [reflexivity|reflexivity]].
  destruct callback as [callback|];
    [|step_log; eexists; rewrite <- !app_assoc; split; reflexivity].
  destruct Hguard as [H|[H|H]]; try discriminate.
  destruct (messageText message) as [[|c rest]|]; try discriminate;
    step_log; eexists; rewrite <- !app_assoc; split; reflexivity.
Qed.

(** X12.  With no type in the state and an empty answer of the model, the
    handler asks the user to choose: it delivers the list of the five
    check-in types, returns [true], and does not run the report generator. *)
Theorem empty_classification_asks_for_type :
  forall (message : Message) (state : State) (callback : HandlerCallback World)
         (c : ascii) (rest : string) (f : Frame World) (w1 w2 : World),
    messageText message = Some (String c rest) ->
    truthy (stateStandupType state) = false ->
    useModel (classificationPrompt (String c rest)) (world f)
    = (Returned EmptyString, w1) ->
    callback promptContent w1 = (Returned tt, w2) ->
    handler message (Some state) (Some callback) f
    = (Returned true,
       {| world := w2; report := report f;
          trace := (trace f
                    ++ [ EvLog Info "=== GENERATE REPORT HANDLER START ===";
                         EvUseModel (classificationPrompt (String c rest));
                         EvLog Info "AI parsed standup type:";
                         EvLog Info "Asking for standup type";
                         EvCallback promptContent ])%list |}).
Proof.
  intros message state callback c rest f w1 w2 Htext Hstate Hmodel Hcb.
  unfold handler. rewrite Htext. unfold try_catch at 1. step_log.
  unfold bind at 1, classify at 1, try_catch at 1.
  unfold bind at 1, external at 1. cbn [world report trace]. rewrite Hmodel.
  step_log. rewrite Hstate. cbn [truthy negb andb]. step_log.
  unfold bind at 1, invoke at 1, external at 1. cbn [world report trace].
  rewrite Hcb. unfold ret. now rewrite <- !app_assoc.
Qed.

(** X13.  When the text generation throws while classifying, the handler
    delivers the "couldn't understand" message, returns [false], and does
    not run the report generator. *)
Theorem classification_failure_is_answered :
  forall (message : Message) (state : State) (callback : HandlerCallback World)
         (c : ascii) (rest : string) (f : Frame World) (e : exn) (w1 w2 : World),
    messageText message = Some (String c rest) ->
    useModel (classificationPrompt (String c rest)) (world f) = (Thrown e, w1) ->
    callback notUnderstoodContent w1 = (Returned tt, w2) ->
    handler message (Some state) (Some callback) f
    = (Returned false,
       {| world := w2; report := report f;
          trace := (trace f
                    ++ [ EvLog Info "=== GENERATE REPORT HANDLER START ===";
                         EvUseModel (classificationPrompt (String c rest));
                         EvLog Error "Error using AI to parse input:";
                         EvCallback notUnderstoodContent ])%list |}).
Proof.
  intros message state callback c rest f e w1 w2 Htext Hmodel Hcb.
  unfold handler. rewrite Htext. unfold try_catch at 1. step_log.
  unfold bind at 1, classify at 1, try_catch at 1.
  unfold bind at 1, external at 1. cbn [world report trace]. rewrite Hmodel.
  step_log.
  unfold bind at 1, invoke at 1, external at 1. cbn [world report trace].
  rewrite Hcb. unfold ret. now rewrite <- !app_assoc.
Qed.


(** X15.  When the store fails after a valid classification, the handler
    logs the error, delivers the apology once and returns [false]. *)
Theorem store_failure_is_apologised_for :
  forall (message : Message) (state : State) (callback : HandlerCallback World)
         (c : ascii) (rest : string) (f : Frame World)
         (parsedType : string) (e : exn) (w1 w2 w3 : World),
    messageText message = Some (String c rest) ->
    useModel (classificationPrompt (String c rest)) (world f)
    = (Returned parsedType, w1) ->
    (truthy (stateStandupType state) || truthy (Some parsedType))%bool = true ->
    isValidType (normalize state parsedType) = true ->
    getMemories w1 = (Thrown e, w2) ->
    callback errorContent w2 = (Returned tt, w3) ->
    handler message (Some state) (Some callback) f
    = (Returned false,
       {| world := w3; report := report f;
          trace := (trace f
                    ++ [ EvLog Info "=== GENERATE REPORT HANDLER START ===";
                         EvUseModel (classificationPrompt (String c rest));
                         EvLog Info "AI parsed standup type:";
                         EvLog Info "Generating report with parameters:";
                         EvLog Info "=== GENERATE TEAM REPORT START ===";
                         EvLog Info ("Generating report for standup type: "
                                     ++ normalize state parsedType);
                         EvGetMemories;
                         EvLog Error "Error generating team report:";
                         EvLog Error "=== GENERATE REPORT HANDLER ERROR ===";
                         EvLog Error "Error details:";
                         EvCallback errorContent ])%list |}).
Proof.
  intros message state callback c rest f parsedType e w1 w2 w3
         Htext Hmodel Hsome Hvalid Hstore Hcb.
  unfold handler. rewrite Htext. unfold try_catch at 1. step_log.
  unfold bind at 1, classify at 1, try_catch at 1.
  unfold bind at 1, external at 1. cbn [world report trace]. rewrite Hmodel.
  step_log.
  apply orb_true_iff in Hsome.
  assert (Hprompt : (negb (truthy (stateStandupType state))
                     && negb (truthy (Some parsedType)))%bool = false).
  { destruct Hsome as [-> | ->]; cbn; [reflexivity | apply andb_false_r]. }
  rewrite Hprompt. step_log. rewrite Hvalid. cbn [negb].
  unfold ret at 1. unfold bind at 1.
  match goal with |- context [generateTeamReport ?t ?r ?g] =>
    rewrite (generateTeamReport_store_failure t r g e w2 Hstore)
  end.
  cbn [world report trace].
  step_log. step_log.
  unfold bind at 1, invoke at 1, external at 1. cbn [world report trace].
  rewrite Hcb. unfold ret. now rewrite <- !app_assoc.
Qed.


(** X17.  Whatever the callback does, one execution invokes it at most
    three times, and the handler itself throws only when its last
    invocation, the delivery of the apology, threw. *)
Theorem at_most_three_deliveries :
  forall (message : Message) (state : option State)
         (callback : option (HandlerCallback World)) (f : Frame World),
    exists evs,
      trace (snd (handler message state callback f)) = (trace f ++ evs)%list
      /\ (List.length (deliveries evs) <= 3)%nat
      /\ (isReturned (fst (handler message state callback f)) = false ->
          exists before, deliveries evs = (before ++ [errorContent])%list).
Proof.
  intros message state callback f.
  destruct (handler_deliveries message state callback f)
    as (o & g & evs & -> & Ht & Hle & _ & Hthrow).
  exists evs. auto.
Qed.

(** X19.  When the delivery of the report itself throws, the handler falls
    into its error path: the apology is delivered after the failed attempt
    and the handler returns [false], the report having been generated. *)
Theorem failed_report_delivery_is_apologised_for :
  forall (message : Message) (state : State) (callback : HandlerCallback World)
         (c : ascii) (rest : string) (f : Frame World)
         (parsedType : string) (w1 w2 : World) (memories : list Memory),
    messageText message = Some (String c rest) ->
    useModel (classificationPrompt (String c rest)) (world f)
    = (Returned parsedType, w1) ->
    (truthy (stateStandupType state) || truthy (Some parsedType))%bool = true ->
    isValidType (normalize state parsedType) = true ->
    getMemories w1 = (Returned memories, w2) ->
    (forall u, In u (filteredUpdates (normalize state parsedType) memories) ->
               inherited (teamMemberId u) = false) ->
    (forall w, isReturned
                 (fst (callback
                         {| text := reportText (normalize state parsedType) memories w2;
                            source := "discord" |} w)) = false) ->
    (forall w, fst (callback errorContent w) = Returned tt) ->
    exists evs,
      trace (snd (handler message (Some state) (Some callback) f))
      = (trace f ++ evs)%list
      /\ deliveries evs
         = [ {| text := reportText (normalize state parsedType) memories w2;
                source := "discord" |};
             errorContent ]
      /\ fst (handler message (Some state) (Some callback) f) = Returned false.
Proof.
  intros message state callback c rest f parsedType w1 w2 memories
         Htext Hmodel Hsome Hvalid Hstore Hkeys Hfail Hok.
  assert (Hrun : exists o f' evs,
             handler message (Some state) (Some callback) f = (o, f')
             /\ trace f' = (trace f ++ evs)%list
             /\ deliveries evs
                = [ {| text := reportText (normalize state parsedType) memories w2;
                       source := "discord" |};
                    errorContent ]
             /\ o = Returned false).
  { unfold handler. rewrite Htext. unfold try_catch at 1. step_log.
    unfold bind at 1, classify at 1, try_catch at 1.
    unfold bind at 1, external at 1. cbn [world report trace]. rewrite Hmodel.
    step_log.
    apply orb_true_iff in Hsome.
    assert (Hprompt : (negb (truthy (stateStandupType state))
                       && negb (truthy (Some parsedType)))%bool = false).
    { destruct Hsome as [-> | ->]; cbn; [reflexivity | apply andb_false_r]. }
    rewrite Hprompt. step_log. rewrite Hvalid. cbn [negb].
    unfold ret at 1. unfold bind at 1.
    match goal with |- context [generateTeamReport ?t ?r ?g] =>
      destruct (generateTeamReport_run t r g memories w2 Hstore Hkeys)
        as (f1 & evs1 & Eg & Ht & _ & _ & Hd)
    end.
    rewrite Eg. cbn [trace] in Ht.
    step_invoke callback.
    match goal with E : callback ?k ?w0 = _ |- _ =>
      pose proof (Hfail w0) as Hc; rewrite E in Hc; cbn [fst] in Hc end.
    destruct o as [[]|e1]; [discriminate|].
    step_log. step_log.
    unfold bind at 1, invoke at 1, external at 1. cbn [world report trace].
    match goal with |- context [callback errorContent ?w0] =>
      pose proof (Hok w0) as Hc2;
      destruct (callback errorContent w0) as [o2 w3]
    end.
    cbn [fst] in Hc2. subst o2.
    do 3 eexists. split; [reflexivity|]. cbn [trace].
    rewrite Ht, <- !app_assoc. cbn [app]. split; [reflexivity|].
    repeat first
      [ progress cbn [deliveries app] | rewrite deliveries_app ].
    rewrite Hd. cbn. auto. }
  destruct Hrun as (o & f' & evs & -> & Ht & Hd & ->).
  exists evs. auto.
Qed.

(** X18.  The room of the message has no effect: two messages with the same
    text are handled alike, the store being asked for the agent's memories
    whatever the room. *)
Theorem room_is_ignored :
  forall (m1 m2 : Message) (state : option State)
         (callback : option (HandlerCallback World)) (f : Frame World),
    messageText m1 = messageText m2 ->
    handler m1 state callback f = handler m2 state callback f.
Proof.
  intros m1 m2 state callback f Htext.
  unfold handler, classify, generateTeamReport. now rewrite Htext.
Qed.

End HandlerProperties.

(** ** Further properties on the sample store *)

Section SampleProperties.
Import Sample.

Lemma team_ids_are_plain :
  forall u, In u (filteredUpdates "sprint" team) -> inherited (teamMemberId u) = false.
Proof. intros u [<-|[<-|[<-|[]]]]; reflexivity. Qed.

Lemma report_is_heading_and_sections_sample :
  reportOf "sprint" (worldWith team)
  = Returned (("📊 **Team Progress Report - " ++ "sprint" ++ " Standups**" ++ nl ++ nl)
              ++ sectionsText (sectionsOf (selectUpdates "sprint" team))
                              (worldWith team)).
Proof.
  exact (report_is_heading_and_sections
           (host:=host) (runtime:=runtime)
           "sprint" None (start (worldWith team)) team (worldWith team)
           eq_refl team_ids_are_plain).
Defined.

Lemma one_fetch_and_one_request_per_section_sample :
  exists evs,
    trace (snd (generateTeamReport "sprint" None (start (worldWith team)))) = evs
    /\ fetches evs = 1
    /\ List.length (prompts evs) = 2
    /\ deliveries evs = [].
Proof.
  destruct (one_fetch_and_one_request_per_section
              (host:=host) (runtime:=runtime)
              "sprint" None (start (worldWith team)) team (worldWith team)
              eq_refl team_ids_are_plain)
    as (evs & Ht & Hf & Hp & Hd).
  exists evs. repeat split; try assumption. now rewrite Hp.
Defined.

Lemma store_failure_is_rethrown_sample :
  reportOf "sprint" worldStoreDown = Thrown (Rejected "database unavailable").
Proof.
  destruct (store_failure_is_rethrown
              (host:=host) (runtime:=runtime)
              "sprint" None (start worldStoreDown)
              (Rejected "database unavailable") worldStoreDown eq_refl)
    as (evs & E & _).
  unfold reportOf. now rewrite E.
Defined.

Lemma inherited_member_id_is_fatal_sample :
  isReturned (reportOf "sprint" (worldWith [stored_update ctor])) = false.
Proof.
  destruct (inherited_member_id_is_fatal
              (host:=host) (runtime:=runtime)
              "sprint" None (start (worldWith [stored_update ctor]))
              [stored_update ctor] (worldWith [stored_update ctor]) ctor
              eq_refl (or_introl eq_refl) eq_refl)
    as (message & f' & evs & E & _).
  unfold reportOf. now rewrite E.
Defined.

(** Three updates of the first day are stored around a later one; two
    updates without a date are stored one after the other. *)
Lemma equal_timestamps_keep_stored_order_sample :
  filter (sameTime (Date_getTime day1))
         (selectUpdates "sprint" (map stored_update [gil; bob2; hal; fay]))
  = [gil; hal; fay]
  /\ selectUpdates "sprint" (map stored_update [danaX; undated]) = [danaX; undated].
Proof.
  split.
  - rewrite (proj1 (equal_timestamps_keep_stored_order
                      (host:=host) "sprint" (map stored_update [gil; bob2; hal; fay]))).
    + reflexivity.
    + repeat constructor; discriminate.
  - rewrite (proj2 (equal_timestamps_keep_stored_order
                      (host:=host) "sprint" (map stored_update [danaX; undated]))).
    + reflexivity.
    + repeat constructor; intros H; now apply H.
Defined.

Lemma section_is_headed_by_newest_update_sample :
  exists first rest,
    [alice3; alice1] = first :: rest
    /\ Forall (newerOrSame first) rest
    /\ sectionHeader "alice" [alice3; alice1]
       = "👤 **Alice** (ID: alice)" ++ nl ++ nl.
Proof.
  assert (E : groupByMember (selectUpdates "sprint" team) [] (start (worldWith team))
              = (Returned teamTable,
                 snd (groupByMember (selectUpdates "sprint" team) []
                        (start (worldWith team)))))
    by (vm_compute; reflexivity).
  destruct (section_is_headed_by_newest_update
              "sprint" team _ _ _ "alice" [alice3; alice1]
              E (or_introl eq_refl))
    as (first & rest & Hitems & _ & Hheader & Hnewest).
  injection Hitems as H1 H2. subst first rest.
  exists alice3, [alice1]. split; [reflexivity|].
  split; [exact (Hnewest team_updates_parse)|].
  reflexivity.
Defined.

Lemma display_stops_at_unconvertible_answer_sample :
  exists f',
    displayAnswers fay (start (worldWith team)) = (Returned tt, f')
    /\ report f' = lines [ "▫️ **Done**: yes"; "▫️ Error parsing update details" ].
Proof.
  destruct (display_stops_at_unconvertible_answer
              (World:=World) (host:=host)
              fay
              (JObject [("Done", JString "yes");
                        ("Meta", JObject [("toString", JNumber "1")])])
              [("Done", JString "yes")] []
              "Meta" (JObject [("toString", JNumber "1")])
              (start (worldWith team)) eq_refl eq_refl eq_refl eq_refl)
    as (f' & E & Rf).
  exists f'. split; [exact E|]. rewrite Rf. reflexivity.
Defined.

Lemma missing_answers_are_an_empty_object_sample :
  displayAnswers gil (start (worldWith team)) = (Returned tt, start (worldWith team)).
Proof.
  exact (proj2 (missing_answers_are_an_empty_object
                  (World:=World) (host:=host) gil (start (worldWith team)) eq_refl)).
Defined.

Lemma null_answers_are_sent_but_not_shown_sample :
  fst (displayAnswers hal (start (worldWith team))) = Returned tt
  /\ report (snd (displayAnswers hal (start (worldWith team))))
     = lines [ "▫️ Error parsing update details" ].
Proof.
  destruct (null_answers_are_sent_but_not_shown
              (World:=World) (host:=host) hal "n" "ull" (start (worldWith team))
              eq_refl eq_refl)
    as (_ & E).
  rewrite E. split; reflexivity.
Defined.

Lemma guards_return_false_without_any_call_sample :
  fst (handler silent (Some noState) (Some delivers) (start (worldWith team)))
  = Returned false.
Proof.
  destruct (guards_return_false_without_any_call
              (host:=host) (runtime:=runtime)
              silent (Some noState) (Some delivers) (start (worldWith team))
              (or_intror (or_intror eq_refl)))
    as (_ & evs & E & _).
  now rewrite E.
Defined.

Lemma empty_classification_asks_for_type_sample :
  fst (handler request (Some noState) (Some delivers)
               (start (worldClassifying EmptyString team)))
  = Returned true
  /\ deliveries (trace (snd (handler request (Some noState) (Some delivers)
                                    (start (worldClassifying EmptyString team)))))
     = [promptContent].
Proof.
  rewrite (empty_classification_asks_for_type
             (host:=host) (runtime:=runtime)
             request noState delivers "C" "an I see the sprint progress report?"
             (start (worldClassifying EmptyString team))
             (worldClassifying EmptyString team) (worldClassifying EmptyString team)
             eq_refl eq_refl eq_refl eq_refl).
  split; reflexivity.
Defined.

Lemma classification_failure_is_answered_sample :
  fst (handler request (Some noState) (Some delivers) (start (worldModelDown team)))
  = Returned false
  /\ deliveries (trace (snd (handler request (Some noState) (Some delivers)
                                    (start (worldModelDown team)))))
     = [notUnderstoodContent].
Proof.
  rewrite (classification_failure_is_answered
             (host:=host) (runtime:=runtime)
             request noState delivers "C" "an I see the sprint progress report?"
             (start (worldModelDown team)) (Rejected "model unavailable")
             (worldModelDown team) (worldModelDown team)
             eq_refl eq_refl eq_refl).
  split; reflexivity.
Defined.


Lemma store_failure_is_apologised_for_sample :
  fst (handler request (Some noState) (Some delivers) (start worldStoreDown))
  = Returned false
  /\ deliveries (trace (snd (handler request (Some noState) (Some delivers)
                                    (start worldStoreDown))))
     = [errorContent].
Proof.
  rewrite (store_failure_is_apologised_for
             (host:=host) (runtime:=runtime)
             request noState delivers "C" "an I see the sprint progress report?"
             (start worldStoreDown) "SPRINT" (Rejected "database unavailable")
             worldStoreDown worldStoreDown worldStoreDown
             eq_refl eq_refl eq_refl eq_refl eq_refl eq_refl).
  split; reflexivity.
Defined.

Lemma failed_report_delivery_is_apologised_for_sample :
  fst (handler request (Some noState) (Some deliversApologyOnly)
               (start (worldWith chatOnly)))
  = Returned false
  /\ deliveries (trace (snd (handler request (Some noState) (Some deliversApologyOnly)
                                    (start (worldWith chatOnly)))))
     = [ {| text :=
              lines [ "📊 **Team Progress Report - sprint Standups**";
                      "";
                      "No updates found for " ++ dq ++ "sprint" ++ dq
                      ++ " standups in this room." ];
            source := "discord" |};
         errorContent ].
Proof.
  destruct (failed_report_delivery_is_apologised_for
              (host:=host) (runtime:=runtime)
              request noState deliversApologyOnly
              "C" "an I see the sprint progress report?"
              (start (worldWith chatOnly)) "SPRINT"
              (worldWith chatOnly) (worldWith chatOnly) chatOnly
              eq_refl eq_refl eq_refl eq_refl eq_refl
              (fun u (H : False) => match H with end)
              (fun _ => eq_refl) (fun _ => eq_refl))
    as (evs & Ht & Hd & Hr).
  split; [exact Hr|]. rewrite Ht. exact Hd.
Defined.


Lemma room_is_ignored_sample :
  handler request (Some noState) (Some delivers) (start (worldWith team))
  = handler requestElsewhere (Some noState) (Some delivers) (start (worldWith team)).
Proof.
  exact (room_is_ignored (host:=host) (runtime:=runtime)
           request requestElsewhere (Some noState) (Some delivers)
           (start (worldWith team)) eq_refl).
Defined.

End SampleProperties.
